(** * Azure Quantum workspace commands of the Q# VS Code extension

    A shallow embedding of [src/vscode/src/azure/commands.ts]: the
    selection handler, the command handlers registered by
    [initAzureWorkspaces] and the helper [saveWorkspaceList], together
    with the two collaborators the handlers drive (the workspace tree
    provider and the refresh cycle).

    The handlers are asynchronous TypeScript closures over the extension
    host.  They are embedded as commands of a small state-and-exception
    monad over a [World]: the tree provider's state, the secret store, the
    captured [currentTreeItem], the UI context keys, and the trace of the
    calls made to the host and to the other modules.  What the awaited
    collaborators answer in a run is given by an instance of [Host]. *)

From Stdlib Require Import Ascii String.
From stdpp Require Import base strings list gmap fin_maps.

Local Open Scope string_scope.
Local Open Scope list_scope.

(** ** JavaScript values used by the handlers *)

(** [!s] on a string: only the empty string is falsy. *)
Definition truthy (s : string) : bool := negb (String.eqb s EmptyString).

(** A value that is a string or [undefined]; [undefined] is falsy. *)
Definition truthy_opt (o : option string) : option string :=
  match o with
  | Some s => if truthy s then Some s else None
  | None => None
  end.

(** [s.split(sep)] for a one-character separator. *)
Fixpoint split (sep : ascii) (s : string) : list string :=
  match s with
  | EmptyString => [EmptyString]
  | String c r =>
      if Ascii.eqb c sep then EmptyString :: split sep r
      else match split sep r with
           | h :: t => String c h :: t
           | [] => [String c EmptyString]
           end
  end.

(** A thrown value: [e?.name], [e.message] and [e instanceof Error]. *)
Record Exn := mkExn {
  exn_name : string;
  exn_message : string;
  exn_instanceofError : bool
}.

(** The settlement of an awaited call. *)
Inductive Completion (A : Type) : Type :=
| Returns (a : A)
| Throws (e : Exn).
Arguments Returns {A} a.
Arguments Throws {A} e.

(** ** Data model (treeView.ts types, as the handlers read them) *)

Module Target.
Record t := mk { id : string }.
End Target.

Module Provider.
Record t := mk { id : string; targets : list Target.t }.
End Provider.

Module Job.
Record t := mk {
  id : string;
  status : string;
  outputDataUri : option string
}.
End Job.

Module WorkspaceConnection.
Record t := mk {
  id : string;
  name : string;
  endpointUri : string;
  tenantId : string;
  apiKey : string;
  providers : list Provider.t;
  jobs : list Job.t
}.
End WorkspaceConnection.

(** [itemData] is a union the handlers cast by the item's [type]; the
    embedding keeps the two together, so that [type] is read off the data. *)
Inductive ItemData :=
| WorkspaceData (w : WorkspaceConnection.t)
| ProviderData (p : Provider.t)
| TargetData (t : Target.t)
| JobData (j : Job.t).

Record WorkspaceTreeItem := mkItem {
  label : option string;
  workspace : WorkspaceConnection.t;
  itemData : ItemData
}.

Definition type (i : WorkspaceTreeItem) : string :=
  match itemData i with
  | WorkspaceData _ => "workspace"
  | ProviderData _ => "provider"
  | TargetData _ => "target"
  | JobData _ => "job"
  end.

(** [new QuantumUris(endpointUri, id)] keeps its two arguments. *)
Record QuantumUris := mkUris { uris_endpoint : string; uris_id : string }.

(** ** Calls observed from outside the handlers *)

Inductive Event :=
| LogDebug (msg : string)
| LogError (msg : string)
| ShowErrorMessage (message : string) (modal : bool) (detail : option string)
| SetContext (key : string) (value : bool)
| SecretsStore (key value : string)
| DidChangeTreeData
| GetQirForActiveWindow (supports_adaptive : bool)
| GetTokenForWorkspace (w : WorkspaceConnection.t)
| SubmitJob (token : string) (uris : QuantumUris) (qir providerId target : string)
| StartRefreshCycle (w : WorkspaceConnection.t) (newJobId : option string)
| QueryWorkspaces
| GetJobFiles (container blob : option string) (token : string) (uris : QuantumUris)
| OpenTextDocument (content language : string)
| ShowTextDocument.

(** Events that reach the user as a message. *)
Definition is_message (e : Event) : bool :=
  match e with
  | ShowErrorMessage _ _ _ => true
  | _ => false
  end.

Definition is_modal_error (e : Event) : bool :=
  match e with
  | ShowErrorMessage _ true _ => true
  | _ => false
  end.

(** Events that go over the network to the quantum service. *)
Definition is_submit (e : Event) : bool :=
  match e with
  | SubmitJob _ _ _ _ _ => true
  | _ => false
  end.

Definition is_fetch (e : Event) : bool :=
  match e with
  | GetJobFiles _ _ _ _ => true
  | _ => false
  end.

Definition is_cycle (e : Event) : bool :=
  match e with
  | StartRefreshCycle _ _ => true
  | _ => false
  end.

Definition is_store (e : Event) : bool :=
  match e with
  | SecretsStore _ _ => true
  | _ => false
  end.

(** ** The workspace registry *)

Module Registry.

(** Modelled from the spec: the class [WorkspaceTreeProvider] of
    treeView.ts is not part of the sources.  Section 4.1 gives it as an
    in-memory mapping of workspace id to WorkspaceConnection with
    [upsert] (insert or replace by id, the whole record), [remove]
    (idempotent), [get] (optional snapshot) and [listIds]. *)
Definition upsert (w : WorkspaceConnection.t)
    (r : gmap string WorkspaceConnection.t) : gmap string WorkspaceConnection.t :=
  <[WorkspaceConnection.id w := w]> r.

(** Modelled from the spec: [removeWorkspace] of the same class; section
    4.1, [remove] deletes the entry and is no error when it is absent. *)
Definition remove (i : string)
    (r : gmap string WorkspaceConnection.t) : gmap string WorkspaceConnection.t :=
  delete i r.

(** Modelled from the spec: [getWorkspace] of the same class; section
    4.1, [get] answers the snapshot held for the id, if any. *)
Definition get (i : string)
    (r : gmap string WorkspaceConnection.t) : option WorkspaceConnection.t :=
  r !! i.

(** Modelled from the spec: [getWorkspaceIds] of the same class; section
    4.1, [listIds] answers the known ids, in an order that is fixed for a
    given registry. *)
Definition listIds (r : gmap string WorkspaceConnection.t) : list string :=
  (map_to_list r).*1.

(** The records held, in the order of [listIds]. *)
Definition workspaces (r : gmap string WorkspaceConnection.t) : list WorkspaceConnection.t :=
  (map_to_list r).*2.

(** A run of [upsert] calls, first call first. *)
Definition upsert_all (ws : list WorkspaceConnection.t)
    (r : gmap string WorkspaceConnection.t) : gmap string WorkspaceConnection.t :=
  foldl (fun acc w => upsert w acc) r ws.

End Registry.

(** ** The world the handlers run in *)

Record World := mkWorld {
  treeState : gmap string WorkspaceConnection.t;
  secrets : gmap string string;
  currentTreeItem : option WorkspaceTreeItem;
  contextKeys : gmap string bool;
  trace : list Event
}.

Definition Cmd (A : Type) : Type := World -> Completion A * World.

Definition ret {A} (a : A) : Cmd A := fun w => (Returns a, w).

Definition bind {A B} (c : Cmd A) (k : A -> Cmd B) : Cmd B :=
  fun w =>
    match c w with
    | (Returns a, w') => k a w'
    | (Throws e, w') => (Throws e, w')
    end.

#[global] Instance cmd_ret : MRet Cmd := @ret.
#[global] Instance cmd_bind : MBind Cmd := fun A B k c => bind c k.

(** [try { c } catch (e) { h e }] *)
Definition try_catch {A} (c : Cmd A) (h : Exn -> Cmd A) : Cmd A :=
  fun w =>
    match c w with
    | (Returns a, w') => (Returns a, w')
    | (Throws e, w') => h e w'
    end.

Definition record (ev : Event) (w : World) : World :=
  mkWorld (treeState w) (secrets w) (currentTreeItem w) (contextKeys w)
          (trace w ++ [ev]).

(** A call that only leaves a mark in the trace. *)
Definition emit (ev : Event) : Cmd unit := fun w => (Returns tt, record ev w).

(** An awaited call to a collaborator, with the settlement it gets. *)
Definition call {A} (ev : Event) (r : Completion A) : Cmd A :=
  fun w => (r, record ev w).

(** A pure host function that may throw. *)
Definition lift {A} (r : Completion A) : Cmd A := fun w => (r, w).

(** [for (const x of xs) body(x)] *)
Fixpoint for_of {A} (xs : list A) (body : A -> Cmd unit) : Cmd unit :=
  match xs with
  | [] => ret tt
  | x :: rest => body x;; for_of rest body
  end.

(** The events a command appended to the trace of [w]. *)
Definition emitted (w w' : World) : list Event :=
  drop (length (trace w)) (trace w').

(** ** Host and provider operations on the world *)

Definition with_treeState (f : gmap string WorkspaceConnection.t -> gmap string WorkspaceConnection.t)
    (w : World) : World :=
  mkWorld (f (treeState w)) (secrets w) (currentTreeItem w) (contextKeys w) (trace w).

Definition with_secrets (f : gmap string string -> gmap string string) (w : World) : World :=
  mkWorld (treeState w) (f (secrets w)) (currentTreeItem w) (contextKeys w) (trace w).

Definition with_currentTreeItem (i : option WorkspaceTreeItem) (w : World) : World :=
  mkWorld (treeState w) (secrets w) i (contextKeys w) (trace w).

Definition with_contextKeys (f : gmap string bool -> gmap string bool) (w : World) : World :=
  mkWorld (treeState w) (secrets w) (currentTreeItem w) (f (contextKeys w)) (trace w).

(** Modelled from the spec: [updateWorkspace] of the class
    [WorkspaceTreeProvider] (treeView.ts, not part of the sources);
    section 4.1, the registry's upsert, then the change notification. *)
Definition updateWorkspace (ws : WorkspaceConnection.t) : Cmd unit :=
  fun w => (Returns tt, record DidChangeTreeData (with_treeState (Registry.upsert ws) w)).

(** Modelled from the spec: [removeWorkspace] of the same class; section
    4.1, the registry's remove, then the change notification. *)
Definition removeWorkspace (i : string) : Cmd unit :=
  fun w => (Returns tt, record DidChangeTreeData (with_treeState (Registry.remove i) w)).

(** Modelled from the spec: [getWorkspaceIds] and [getWorkspace] of the
    same class; section 4.1, reads without side effects. *)
Definition getWorkspaceIds : Cmd (list string) :=
  fun w => (Returns (Registry.listIds (treeState w)), w).

Definition getWorkspace (i : string) : Cmd (option WorkspaceConnection.t) :=
  fun w => (Returns (Registry.get i (treeState w)), w).

(** [context.secrets.get(key)] and [context.secrets.store(key, value)] *)
Definition secrets_get (key : string) : Cmd (option string) :=
  fun w => (Returns (secrets w !! key), w).

(** The store is taken to succeed. *)
Definition secrets_store (key value : string) : Cmd unit :=
  fun w => (Returns tt, record (SecretsStore key value) (with_secrets (insert key value) w)).

(** [vscode.commands.executeCommand("setContext", key, value)] *)
Definition setContext (key : string) (value : bool) : Cmd unit :=
  fun w => (Returns tt, record (SetContext key value) (with_contextKeys (insert key value) w)).

(** [startRefreshCycle(workspaceTreeProvider, workspace, newJobId?)] is
    never awaited by the handlers: the call is a mark in the trace. *)
Definition startRefreshCycle (ws : WorkspaceConnection.t) (newJobId : option string) : Cmd unit :=
  emit (StartRefreshCycle ws newJobId).

Definition workspacesSecret : string := "qsharp-vscode.workspaces".

(** The thrown value when a property of [undefined] is read. *)
Definition TypeError : Exn := mkExn "TypeError" "Cannot read properties of undefined" true.

(** ** commands.ts *)

(** The collaborators of commands.ts that are not part of it: what each
    call answers in the run at hand.  An awaited call settles to a value
    or throws. *)
Class Host := {
  (** providerProperties.ts *)
  supportsAdaptive : string -> bool;
  targetSupportQir : string -> bool;
  (** qirGeneration.ts, auth.ts, workspaceActions.ts *)
  getQirForActiveWindow : bool -> Completion string;
  getTokenForWorkspace : WorkspaceConnection.t -> Completion (option string);
  submitJob :
    string -> QuantumUris -> string -> string -> string -> Completion (option string);
  queryWorkspaces : Completion (option WorkspaceConnection.t);
  getJobFiles :
    option string -> option string -> string -> QuantumUris -> Completion (option string);
  (** vscode and the JavaScript built-ins *)
  openTextDocument : string -> Completion unit;
  Uri_parse_path : string -> Completion string;
  JSON_parse : string -> Completion (list WorkspaceConnection.t);
  JSON_stringify : list WorkspaceConnection.t -> string
}.

Section Commands.

Context `{Host}.

(** [initAzureWorkspaces], lines 29-52: a fresh provider, then the
    saved workspaces. *)
Definition initAzureWorkspaces : Cmd unit :=
  (fun w => (Returns tt, with_currentTreeItem None (with_treeState (fun _ => ∅) w)));;
  savedWorkspaces ← secrets_get workspacesSecret;
  match truthy_opt savedWorkspaces with
  | Some savedWorkspaces =>
      emit (LogDebug "Loading workspaces: ");;
      workspaces ← lift (JSON_parse savedWorkspaces);
      for_of workspaces (fun workspace =>
        updateWorkspace workspace;;
        startRefreshCycle workspace None)
  | None => emit (LogDebug "No saved workspaces found.")
  end.

(** What the loop of lines 45-49 leaves in the trace. *)
Definition loaded (workspaces : list WorkspaceConnection.t) : list Event :=
  flat_map (fun workspace => [DidChangeTreeData; StartRefreshCycle workspace None])
           workspaces.

(** [treeView.onDidChangeSelection], lines 55-97 *)
Definition supportsQir_of (selection : list WorkspaceTreeItem) : bool :=
  match selection with
  | [item] =>
      match itemData item with
      | TargetData _ => targetSupportQir (default EmptyString (label item))
      | _ => false
      end
  | _ => false
  end.

Definition supportsDownload_of (selection : list WorkspaceTreeItem) : bool :=
  match selection with
  | [item] =>
      match itemData item with
      | JobData job =>
          String.eqb (Job.status job) "Succeeded"
          && bool_decide (is_Some (truthy_opt (Job.outputDataUri job)))
      | _ => false
      end
  | _ => false
  end.

Definition isWorkspace_of (selection : list WorkspaceTreeItem) : bool :=
  match selection with
  | [item] =>
      match itemData item with
      | WorkspaceData _ => true
      | _ => false
      end
  | _ => false
  end.

Definition onDidChangeSelection (selection : list WorkspaceTreeItem) : Cmd unit :=
  (fun w => (Returns tt,
             with_currentTreeItem
               (match selection with [item] => Some item | _ => None end) w));;
  setContext "qsharp-vscode.treeItemSupportsQir" (supportsQir_of selection);;
  setContext "qsharp-vscode.treeItemSupportsDownload" (supportsDownload_of selection);;
  setContext "qsharp-vscode.treeItemIsWorkspace" (isWorkspace_of selection).

(** [arg || currentTreeItem] *)
Definition resolve (arg : option WorkspaceTreeItem) : Cmd (option WorkspaceTreeItem) :=
  fun w => (Returns (match arg with Some a => Some a | None => currentTreeItem w end), w).

(** [qsharp-vscode.targetSubmit], lines 103-154 *)
Definition targetSubmit (arg : option WorkspaceTreeItem) : Cmd unit :=
  treeItem ← resolve arg;
  match treeItem with
  | Some treeItem =>
      match itemData treeItem with
      | TargetData target =>
          let providerId := default EmptyString (head (split "." (Target.id target))) in
          let supports_adaptive := supportsAdaptive (Target.id target) in
          qir ← try_catch
                  (qir ← call (GetQirForActiveWindow supports_adaptive)
                              (getQirForActiveWindow supports_adaptive);
                   mret (Some qir))
                  (fun e =>
                     if String.eqb (exn_name e) "QirGenerationError"
                     then emit (ShowErrorMessage (exn_message e) false None);;
                          mret None
                     else mret (Some EmptyString));
          match qir with
          | None => mret tt
          | Some qir =>
              if negb (truthy qir) then mret tt
              else
                let quantumUris :=
                  mkUris (WorkspaceConnection.endpointUri (workspace treeItem))
                         (WorkspaceConnection.id (workspace treeItem)) in
                try_catch
                  (token ← call (GetTokenForWorkspace (workspace treeItem))
                                (getTokenForWorkspace (workspace treeItem));
                   match truthy_opt token with
                   | None => mret tt
                   | Some token =>
                       jobId ← call (SubmitJob token quantumUris qir providerId
                                               (Target.id target))
                                    (submitJob token quantumUris qir providerId
                                               (Target.id target));
                       match truthy_opt jobId with
                       | Some jobId => startRefreshCycle (workspace treeItem) (Some jobId)
                       | None => mret tt
                       end
                   end)
                  (fun e =>
                     emit (LogError "Failed to submit job. ");;
                     emit (ShowErrorMessage "Failed to submit the job to Azure." true
                             (if exn_instanceofError e then Some (exn_message e) else None)))
          end
      | _ => mret tt
      end
  | None => mret tt
  end.

(** [saveWorkspaceList], lines 172-196 *)
Definition savedRecord (elem : WorkspaceConnection.t) : WorkspaceConnection.t :=
  WorkspaceConnection.mk
    (WorkspaceConnection.id elem)
    (WorkspaceConnection.name elem)
    (WorkspaceConnection.endpointUri elem)
    (WorkspaceConnection.tenantId elem)
    (WorkspaceConnection.apiKey elem)
    [] [].

Fixpoint push_saved (workspaces : list (option WorkspaceConnection.t))
    (savedWorkspaces : list WorkspaceConnection.t) : Cmd (list WorkspaceConnection.t) :=
  match workspaces with
  | [] => mret savedWorkspaces
  | Some elem :: rest => push_saved rest (savedWorkspaces ++ [savedRecord elem])
  | None :: _ => lift (Throws TypeError)
  end.

Definition saveWorkspaceList : Cmd unit :=
  ids ← getWorkspaceIds;
  workspaces ← (fun w => (Returns (map (fun i => Registry.get i (treeState w)) ids), w));
  savedWorkspaces ← push_saved workspaces [];
  emit (LogDebug "Saving workspaces: ");;
  secrets_store workspacesSecret (JSON_stringify savedWorkspaces).

(** [qsharp-vscode.workspacesAdd], lines 199-207 *)
Definition workspacesAdd : Cmd unit :=
  workspace ← call QueryWorkspaces queryWorkspaces;
  match workspace with
  | Some workspace =>
      updateWorkspace workspace;;
      saveWorkspaceList;;
      startRefreshCycle workspace None
  | None => mret tt
  end.

(** [qsharp-vscode.workspacesRemove], lines 213-221 *)
Definition workspacesRemove (arg : option WorkspaceTreeItem) : Cmd unit :=
  treeItem ← resolve arg;
  match treeItem with
  | Some treeItem =>
      match itemData treeItem with
      | WorkspaceData workspace =>
          removeWorkspace (WorkspaceConnection.id workspace);;
          saveWorkspaceList
      | _ => mret tt
      end
  | None => mret tt
  end.

(** [qsharp-vscode.downloadResults], lines 228-270 *)
Definition downloadResults (arg : option WorkspaceTreeItem) : Cmd unit :=
  treeItem ← resolve arg;
  match treeItem with
  | Some treeItem =>
      match itemData treeItem with
      | JobData job =>
          match truthy_opt (Job.outputDataUri job) with
          | None => emit (LogError "Download called for job with null outputDataUri")
          | Some outputDataUri =>
              path ← lift (Uri_parse_path outputDataUri);
              let parts := split "/" path in
              let container := parts !! 1%nat in
              let blob := parts !! 2%nat in
              let quantumUris :=
                mkUris (WorkspaceConnection.endpointUri (workspace treeItem))
                       (WorkspaceConnection.id (workspace treeItem)) in
              try_catch
                (token ← call (GetTokenForWorkspace (workspace treeItem))
                              (getTokenForWorkspace (workspace treeItem));
                 match truthy_opt token with
                 | None => mret tt
                 | Some token =>
                     file ← call (GetJobFiles container blob token quantumUris)
                                 (getJobFiles container blob token quantumUris);
                     match truthy_opt file with
                     | Some file =>
                         call (OpenTextDocument file "json") (openTextDocument file);;
                         emit ShowTextDocument
                     | None => mret tt
                     end
                 end)
                (fun e =>
                   emit (LogError "Failed to download result file. ");;
                   emit (ShowErrorMessage "Failed to download the results file." true
                           (if exn_instanceofError e then Some (exn_message e) else None)))
          end
      | _ => mret tt
      end
  | None => mret tt
  end.

End Commands.

(** A job is created by a run when one of its calls of submitJob
    answered: what the service does on a call that throws is not
    something the handler gets to know. *)
Definition job_created `{Host} (evs : list Event) : Prop :=
  exists token uris qir providerId target j,
    In (SubmitJob token uris qir providerId target) evs
    /\ submitJob token uris qir providerId target = Returns j.

(** ** The refresh cycle *)

Module RefreshCycle.

(** Modelled from the spec: treeRefresher.ts is not part of the sources.
    Sections 3 and 4.2: a fetched snapshot replaces the providers and the
    jobs of the record as a whole; the other fields stay. *)
Definition with_snapshot (w : WorkspaceConnection.t)
    (providers : list Provider.t) (jobs : list Job.t) : WorkspaceConnection.t :=
  WorkspaceConnection.mk
    (WorkspaceConnection.id w)
    (WorkspaceConnection.name w)
    (WorkspaceConnection.endpointUri w)
    (WorkspaceConnection.tenantId w)
    (WorkspaceConnection.apiKey w)
    providers jobs.

(** Modelled from the spec: the state of one refresh cycle (section 4.2):
    the workspace id it was started for, the generation it was started
    at (section 5), the job to prioritize, and whether it still polls. *)
Record Cycle := mkCycle {
  cycle_workspace : string;
  cycle_generation : nat;
  cycle_job : option string;
  cycle_running : bool
}.

(** Modelled from the spec: the registry, the generation counter per
    workspace id (section 5), and every cycle started so far; a cycle is
    named by its position in the list. *)
Record State := mkState {
  registry : gmap string WorkspaceConnection.t;
  generation : gmap string nat;
  cycles : list Cycle
}.

(** Modelled from the spec: what can happen on the event loop (section
    5); each step runs to completion.  [Tick] carries the snapshot the
    cycle fetched; [Upsert] and [Remove] are the command handlers'. *)
Inductive Step :=
| Start (i : string) (job : option string)
| Tick (h : nat) (providers : list Provider.t) (jobs : list Job.t)
| FetchFailed (h : nat)
| Upsert (w : WorkspaceConnection.t)
| Remove (i : string).

Definition init : State := mkState ∅ ∅ [].

(** The cycle, no longer polling. *)
Definition stopped (c : Cycle) : Cycle :=
  mkCycle (cycle_workspace c) (cycle_generation c) (cycle_job c) false.

Definition stop (h : nat) (s : State) : State :=
  mkState (registry s) (generation s) (alter stopped h (cycles s)).

Section Model.

(** Which job statuses are final is left to the service. *)
Variable terminal : string -> bool.

(** Modelled from the spec: section 4.2, something is still pending: a
    job that is not terminal, or the prioritized job that has not shown
    up in the list yet (commands.ts, lines 142-143). *)
Definition pending (job : option string) (jobs : list Job.t) : bool :=
  existsb (fun j => negb (terminal (Job.status j))) jobs
  || match job with
     | Some i => negb (existsb (fun j => String.eqb (Job.id j) i) jobs)
     | None => false
     end.

(** Modelled from the spec: [startRefreshCycle] of treeRefresher.ts is
    not part of the sources.  Sections 4.2 and 5: starting a cycle for
    a workspace id bumps that id's generation counter and supersedes
    any earlier cycle for it. *)
Definition start (i : string) (job : option string) (s : State) : State :=
  let g := S (default 0 (generation s !! i)) in
  mkState (registry s) (<[i := g]> (generation s))
          (cycles s ++ [mkCycle i g job true]).

(** Modelled from the spec: section 5, a cycle is superseded when the
    generation of its workspace is no longer the one it was started at. *)
Definition superseded (c : Cycle) (s : State) : bool :=
  negb (bool_decide (generation s !! cycle_workspace c = Some (cycle_generation c))).

(** Modelled from the spec: one tick of the polling loop of
    treeRefresher.ts, which is not part of the sources.  Sections 4.2
    and 5: a superseded cycle exits without touching the registry; a
    cycle whose workspace was removed stops; otherwise the fetched
    snapshot is upserted, and the cycle stops once nothing is pending. *)
Definition tick (h : nat) (providers : list Provider.t) (jobs : list Job.t)
    (s : State) : State :=
  match cycles s !! h with
  | None => s
  | Some c =>
      if negb (cycle_running c) then s
      else if superseded c s then stop h s
      else match Registry.get (cycle_workspace c) (registry s) with
           | None => stop h s
           | Some w =>
               let s' := mkState (Registry.upsert (with_snapshot w providers jobs)
                                                  (registry s))
                                 (generation s) (cycles s) in
               if pending (cycle_job c) jobs then s' else stop h s'
           end
  end.

(** Modelled from the spec: section 4.2, a failed fetch is logged and
    the cycle goes on to its next tick. *)
Definition step (x : Step) (s : State) : State :=
  match x with
  | Start i job => start i job s
  | Tick h providers jobs => tick h providers jobs s
  | FetchFailed _ => s
  | Upsert w => mkState (Registry.upsert w (registry s)) (generation s) (cycles s)
  | Remove i => mkState (Registry.remove i (registry s)) (generation s) (cycles s)
  end.

Definition run (steps : list Step) (s : State) : State :=
  foldl (fun acc x => step x acc) s steps.

End Model.

(** A step that neither starts a cycle for [i] nor upserts [i] from
    outside a cycle. *)
Definition foreign (i : string) (x : Step) : bool :=
  match x with
  | Start j _ => negb (String.eqb j i)
  | Upsert w => negb (String.eqb (WorkspaceConnection.id w) i)
  | _ => true
  end.

Definition running (h : nat) (s : State) : bool :=
  match cycles s !! h with
  | Some c => cycle_running c
  | None => false
  end.

(** Cycle [h] has ticked among [steps]. *)
Definition ticked (h : nat) (steps : list Step) : Prop :=
  exists providers jobs, In (Tick h providers jobs) steps.

(** The record [w] carries a snapshot that cycle [h] fetched among [steps]. *)
Definition fetched_by (h : nat) (steps : list Step) (w : WorkspaceConnection.t) : Prop :=
  exists providers jobs,
    In (Tick h providers jobs) steps
    /\ WorkspaceConnection.providers w = providers
    /\ WorkspaceConnection.jobs w = jobs.

(** Every registry entry sits under its own id. *)
Definition keyed (s : State) : Prop :=
  forall k w, registry s !! k = Some w -> WorkspaceConnection.id w = k.

(** No cycle is ahead of the generation counter of its workspace. *)
Definition bounded (s : State) : Prop :=
  forall h c,
    cycles s !! h = Some c ->
    exists g, generation s !! cycle_workspace c = Some g /\ cycle_generation c <= g.

(** Cycle [h] is the one cycle of workspace [i] that carries the current
    generation. *)
Definition current (i : string) (h : nat) (s : State) : Prop :=
  (exists c, cycles s !! h = Some c /\ cycle_workspace c = i
             /\ generation s !! i = Some (cycle_generation c))
  /\ (forall h' c, cycles s !! h' = Some c -> cycle_workspace c = i -> h' <> h ->
                 generation s !! i <> Some (cycle_generation c)).

End RefreshCycle.

(** ** A concrete host, for running the handlers *)

Module Example.

(** [JSON.stringify] on the records of the data model. *)
Definition dquote : string := String (ascii_of_nat 34) EmptyString.

Definition hex (n : nat) : ascii :=
  ascii_of_nat (if Nat.ltb n 10 then 48 + n else 87 + n).

Definition escape_char (c : ascii) : string :=
  let n := nat_of_ascii c in
  if Nat.eqb n 34 then "\" +:+ dquote
  else if Nat.eqb n 92 then "\\"
  else if Nat.eqb n 8 then "\b"
  else if Nat.eqb n 9 then "\t"
  else if Nat.eqb n 10 then "\n"
  else if Nat.eqb n 12 then "\f"
  else if Nat.eqb n 13 then "\r"
  else if Nat.ltb n 32
       then "\u00" +:+ String (hex (n / 16)) (String (hex (n mod 16)) EmptyString)
       else String c EmptyString.

Fixpoint escape (s : string) : string :=
  match s with
  | EmptyString => EmptyString
  | String c r => escape_char c +:+ escape r
  end.

Definition quoted (s : string) : string := dquote +:+ escape s +:+ dquote.

Definition member (key value : string) : string := quoted key +:+ ":" +:+ value.

Fixpoint join (items : list string) : string :=
  match items with
  | [] => EmptyString
  | [x] => x
  | x :: rest => x +:+ "," +:+ join rest
  end.

Definition array (items : list string) : string := "[" +:+ join items +:+ "]".
Definition object (members : list string) : string := "{" +:+ join members +:+ "}".

Definition target_json (t : Target.t) : string :=
  object [member "id" (quoted (Target.id t))].

Definition provider_json (p : Provider.t) : string :=
  object [member "id" (quoted (Provider.id p));
          member "targets" (array (map target_json (Provider.targets p)))].

Definition job_json (j : Job.t) : string :=
  object ([member "id" (quoted (Job.id j));
           member "status" (quoted (Job.status j))]
          ++ match Job.outputDataUri j with
             | Some u => [member "outputDataUri" (quoted u)]
             | None => []
             end).

Definition workspace_json (w : WorkspaceConnection.t) : string :=
  object [member "id" (quoted (WorkspaceConnection.id w));
          member "name" (quoted (WorkspaceConnection.name w));
          member "endpointUri" (quoted (WorkspaceConnection.endpointUri w));
          member "tenantId" (quoted (WorkspaceConnection.tenantId w));
          member "apiKey" (quoted (WorkspaceConnection.apiKey w));
          member "providers" (array (map provider_json (WorkspaceConnection.providers w)));
          member "jobs" (array (map job_json (WorkspaceConnection.jobs w)))].

Definition stringify (ws : list WorkspaceConnection.t) : string :=
  array (map workspace_json ws).

(** Two workspaces, a target item, a job item. *)
Definition jobDone : Job.t := Job.mk "job-7" "Succeeded" (Some "https://store/container/blob").
Definition jobBusy : Job.t := Job.mk "job-8" "Executing" None.
Definition ionq : Provider.t := Provider.mk "ionq" [Target.mk "ionq.simulator"].

Definition wsA : WorkspaceConnection.t :=
  WorkspaceConnection.mk "ws-a" "Alpha" "https://alpha.example" "tenant-1" "key-a"
                         [ionq] [jobDone; jobBusy].
Definition wsB : WorkspaceConnection.t :=
  WorkspaceConnection.mk "ws-b" "Beta" "https://beta.example" "tenant-1" "key-b" [] [].

Definition targetItem : WorkspaceTreeItem :=
  mkItem (Some "ionq.simulator") wsA (TargetData (Target.mk "ionq.simulator")).
Definition jobItem : WorkspaceTreeItem := mkItem (Some "job-7") wsA (JobData jobDone).
Definition workspaceItem : WorkspaceTreeItem := mkItem (Some "Alpha") wsA (WorkspaceData wsA).

Definition saved : list WorkspaceConnection.t :=
  [WorkspaceConnection.mk "ws-a" "Alpha" "https://alpha.example" "tenant-1" "key-a" [] [];
   WorkspaceConnection.mk "ws-b" "Beta" "https://beta.example" "tenant-1" "key-b" [] []].

Definition SyntaxError : Exn := mkExn "SyntaxError" "Unexpected token" true.
Definition NetworkError : Exn := mkExn "Error" "503 Service Unavailable" true.
Definition QirGenerationError : Exn :=
  mkExn "QirGenerationError" "The program has compilation errors" true.

(** A host on which every call succeeds. *)
Definition host : Host := {|
  supportsAdaptive := fun t => String.eqb t "quantinuum.sim.h1-1e";
  targetSupportQir := fun t => String.eqb t "ionq.simulator";
  getQirForActiveWindow := fun _ => Returns "%Result = type opaque";
  getTokenForWorkspace := fun _ => Returns (Some "bearer-1");
  submitJob := fun _ _ _ _ _ => Returns (Some "job-9");
  queryWorkspaces := Returns (Some wsB);
  getJobFiles := fun _ _ _ _ => Returns (Some "{}");
  openTextDocument := fun _ => Returns tt;
  Uri_parse_path := fun _ => Returns "/container/blob";
  JSON_parse := fun s => if String.eqb s (stringify saved) then Returns saved
                         else Throws SyntaxError;
  JSON_stringify := stringify
|}.

(** The same host with one answer changed. *)
Definition host_qir (r : Completion string) : Host := {|
  supportsAdaptive := @supportsAdaptive host;
  targetSupportQir := @targetSupportQir host;
  getQirForActiveWindow := fun _ => r;
  getTokenForWorkspace := @getTokenForWorkspace host;
  submitJob := @submitJob host;
  queryWorkspaces := @queryWorkspaces host;
  getJobFiles := @getJobFiles host;
  openTextDocument := @openTextDocument host;
  Uri_parse_path := @Uri_parse_path host;
  JSON_parse := @JSON_parse host;
  JSON_stringify := @JSON_stringify host
|}.

Definition host_token (r : Completion (option string)) : Host := {|
  supportsAdaptive := @supportsAdaptive host;
  targetSupportQir := @targetSupportQir host;
  getQirForActiveWindow := @getQirForActiveWindow host;
  getTokenForWorkspace := fun _ => r;
  submitJob := @submitJob host;
  queryWorkspaces := @queryWorkspaces host;
  getJobFiles := @getJobFiles host;
  openTextDocument := @openTextDocument host;
  Uri_parse_path := @Uri_parse_path host;
  JSON_parse := @JSON_parse host;
  JSON_stringify := @JSON_stringify host
|}.

Definition host_submit (r : Completion (option string)) : Host := {|
  supportsAdaptive := @supportsAdaptive host;
  targetSupportQir := @targetSupportQir host;
  getQirForActiveWindow := @getQirForActiveWindow host;
  getTokenForWorkspace := @getTokenForWorkspace host;
  submitJob := fun _ _ _ _ _ => r;
  queryWorkspaces := @queryWorkspaces host;
  getJobFiles := @getJobFiles host;
  openTextDocument := @openTextDocument host;
  Uri_parse_path := @Uri_parse_path host;
  JSON_parse := @JSON_parse host;
  JSON_stringify := @JSON_stringify host
|}.

Definition host_query (r : Completion (option WorkspaceConnection.t)) : Host := {|
  supportsAdaptive := @supportsAdaptive host;
  targetSupportQir := @targetSupportQir host;
  getQirForActiveWindow := @getQirForActiveWindow host;
  getTokenForWorkspace := @getTokenForWorkspace host;
  submitJob := @submitJob host;
  queryWorkspaces := r;
  getJobFiles := @getJobFiles host;
  openTextDocument := @openTextDocument host;
  Uri_parse_path := @Uri_parse_path host;
  JSON_parse := @JSON_parse host;
  JSON_stringify := @JSON_stringify host
|}.

(** A world with workspace A registered and nothing selected. *)
Definition world : World :=
  mkWorld (Registry.upsert wsA ∅) ∅ None ∅ [].

(** The same world after the list was saved. *)
Definition world_saved : World :=
  mkWorld ∅ {[ workspacesSecret := stringify saved ]} None ∅ [].

Definition terminal (status : string) : bool :=
  String.eqb status "Succeeded" || String.eqb status "Failed"
  || String.eqb status "Cancelled".

End Example.

(** ** The refresh command *)

(** [qsharp-vscode.workspacesRefresh], lines 159-169 *)
Definition workspacesRefresh : Cmd unit :=
  workspaceIds ← getWorkspaceIds;
  for_of workspaceIds (fun id =>
    workspace ← getWorkspace id;
    match workspace with
    | Some workspace => startRefreshCycle workspace None
    | None => mret tt
    end).

(** ** Well-formed provider state *)

(** Every workspace of the provider is held under its own id, as
    [updateWorkspace] puts it. *)
Definition keyedRegistry (r : gmap string WorkspaceConnection.t) : Prop :=
  forall k w, r !! k = Some w -> WorkspaceConnection.id w = k.

(** The trace of [w'] continues the trace of [w], and nothing else of the
    world differs. *)
Definition only_trace (w w' : World) : Prop :=
  treeState w' = treeState w
  /\ secrets w' = secrets w
  /\ currentTreeItem w' = currentTreeItem w
  /\ contextKeys w' = contextKeys w
  /\ trace w' = trace w ++ emitted w w'.

(** The character [c] occurs in [s]. *)
Definition occurs (c : ascii) (s : string) : Prop :=
  In c (list_ascii_of_string s).

(** ** More hosts and worlds to run the handlers in *)

Module Scenario.

(** The host of [Example] with the answer of getJobFiles changed. *)
Definition host_files (r : Completion (option string)) : Host := {|
  supportsAdaptive := @supportsAdaptive Example.host;
  targetSupportQir := @targetSupportQir Example.host;
  getQirForActiveWindow := @getQirForActiveWindow Example.host;
  getTokenForWorkspace := @getTokenForWorkspace Example.host;
  submitJob := @submitJob Example.host;
  queryWorkspaces := @queryWorkspaces Example.host;
  getJobFiles := fun _ _ _ _ => r;
  openTextDocument := @openTextDocument Example.host;
  Uri_parse_path := @Uri_parse_path Example.host;
  JSON_parse := @JSON_parse Example.host;
  JSON_stringify := @JSON_stringify Example.host
|}.

(** The host of [Example] with the answer of Uri.parse changed. *)
Definition host_uri (r : Completion string) : Host := {|
  supportsAdaptive := @supportsAdaptive Example.host;
  targetSupportQir := @targetSupportQir Example.host;
  getQirForActiveWindow := @getQirForActiveWindow Example.host;
  getTokenForWorkspace := @getTokenForWorkspace Example.host;
  submitJob := @submitJob Example.host;
  queryWorkspaces := @queryWorkspaces Example.host;
  getJobFiles := @getJobFiles Example.host;
  openTextDocument := @openTextDocument Example.host;
  Uri_parse_path := fun _ => r;
  JSON_parse := @JSON_parse Example.host;
  JSON_stringify := @JSON_stringify Example.host
|}.

(** A host whose JSON.parse reads back what JSON.stringify wrote for the
    lists of saved records over the two workspaces of [Example]. *)
Definition parse_saved (s : string) : Completion (list WorkspaceConnection.t) :=
  match List.find (fun l => String.eqb s (Example.stringify l))
                  [Example.saved; [savedRecord Example.wsA]; [savedRecord Example.wsB]; []]
  with
  | Some l => Returns l
  | None => Throws Example.SyntaxError
  end.

Definition host_reload : Host := {|
  supportsAdaptive := @supportsAdaptive Example.host;
  targetSupportQir := @targetSupportQir Example.host;
  getQirForActiveWindow := @getQirForActiveWindow Example.host;
  getTokenForWorkspace := @getTokenForWorkspace Example.host;
  submitJob := @submitJob Example.host;
  queryWorkspaces := @queryWorkspaces Example.host;
  getJobFiles := @getJobFiles Example.host;
  openTextDocument := @openTextDocument Example.host;
  Uri_parse_path := @Uri_parse_path Example.host;
  JSON_parse := parse_saved;
  JSON_stringify := Example.stringify
|}.

Definition UriError : Exn := mkExn "Error" "[UriError]: Scheme contains illegal characters." true.

(** Both workspaces registered, with their providers and jobs. *)
Definition world_two : World :=
  mkWorld (Registry.upsert_all [Example.wsA; Example.wsB] ∅) ∅ None ∅ [].

(** A secret that is not JSON. *)
Definition world_corrupt : World :=
  mkWorld ∅ {[ workspacesSecret := "not json" ]} None ∅ [].

(** A job that is still running, as a tree item. *)
Definition busyItem : WorkspaceTreeItem :=
  mkItem (Some "job-8") Example.wsA (JobData Example.jobBusy).

Definition workspaceItemB : WorkspaceTreeItem :=
  mkItem (Some "Beta") Example.wsB (WorkspaceData Example.wsB).

End Scenario.

(** * Properties *)

(** ** Running a command *)

Lemma emitted_app (w w' : World) (evs : list Event) :
  trace w' = trace w ++ evs -> emitted w w' = evs.
Proof.
  intros E. unfold emitted. rewrite E. apply drop_app_length.
Qed.

Lemma truthy_opt_Some (o : option string) (s : string) :
  truthy_opt o = Some s <-> o = Some s /\ s <> EmptyString.
Proof.
  unfold truthy_opt, truthy. destruct o as [x|]; [|split; [discriminate | intros [? _]; discriminate]].
  destruct (String.eqb_spec x EmptyString) as [->|N]; simpl.
  - split; [discriminate | intros [[= <-] N]; contradiction].
  - split; [intros [= <-]; auto | intros [[= <-] _]; reflexivity].
Qed.

Example split_target : split "." "ionq.qpu.aria-1" = ["ionq"; "qpu"; "aria-1"].
Proof. reflexivity. Qed.

Example split_path : split "/" "/container/blob" = [EmptyString; "container"; "blob"].
Proof. reflexivity. Qed.

Example split_empty : split "." EmptyString = [EmptyString].
Proof. reflexivity. Qed.

(** Unfold a handler down to the answers of the host. *)
Ltac run_cmd :=
  cbv [targetSubmit workspacesRemove downloadResults workspacesAdd resolve
       mbind cmd_bind bind mret cmd_ret ret try_catch call emit lift
       startRefreshCycle].

Ltac norm_trace :=
  unfold emitted, record; simpl;
  rewrite <- ?app_assoc, ?drop_app_length, ?drop_all; simpl.

Ltac member_cases :=
  repeat match goal with
         | D : _ \/ _ |- _ => destruct D as [D|D]
         | D : False |- _ => destruct D
         | D : @eq Event _ _ |- _ => first [discriminate D | injection D as D; subst]
         end.

Ltac is_answer c :=
  lazymatch c with
  | getQirForActiveWindow _ => idtac
  | getTokenForWorkspace _ => idtac
  | submitJob _ _ _ _ _ => idtac
  | queryWorkspaces => idtac
  | getJobFiles _ _ _ _ => idtac
  | openTextDocument _ => idtac
  | Uri_parse_path _ => idtac
  | JSON_parse _ => idtac
  end.

(** Case analysis on every answer and every truthiness test on the way. *)
Ltac host_case :=
  repeat (simpl; match goal with
  | |- context [match ?c with Returns _ => _ | Throws _ => _ end] =>
      is_answer c; destruct c eqn:?
  | |- context [match truthy_opt ?x with Some _ => _ | None => _ end] =>
      destruct (truthy_opt x) eqn:?
  | |- context [negb (truthy ?s)] => destruct (truthy s) eqn:?
  | |- context [if String.eqb ?a ?b then _ else _] => destruct (String.eqb a b) eqn:?
  | |- context [if exn_instanceofError ?e then _ else _] =>
      destruct (exn_instanceofError e) eqn:?
  end).

Ltac item_case arg w :=
  destruct (match arg with Some a => Some a | None => currentTreeItem w end) as [?i|];
  [destruct (itemData i) eqn:?|].

(** ** Missing preconditions *)

(** C7: when the resolved tree item (the argument, or else the current
    selection) is absent or not of the type the command needs, each of
    targetSubmit, workspacesRemove and downloadResults returns with the
    world as it was: no mutation, no call, no message. *)
Theorem missing_precondition_is_noop `{Host} (arg : option WorkspaceTreeItem) (w : World) :
  let treeItem := match arg with Some a => Some a | None => currentTreeItem w end in
  ((forall i, treeItem = Some i -> type i <> "target") ->
     targetSubmit arg w = (Returns tt, w)) /\
  ((forall i, treeItem = Some i -> type i <> "workspace") ->
     workspacesRemove arg w = (Returns tt, w)) /\
  ((forall i, treeItem = Some i -> type i <> "job") ->
     downloadResults arg w = (Returns tt, w)).
Proof.
  intros treeItem. subst treeItem. run_cmd.
  destruct (match arg with Some a => Some a | None => currentTreeItem w end) as [i|];
    [|by repeat split].
  unfold type. repeat split; intros N; specialize (N i eq_refl);
    destruct (itemData i); try reflexivity; contradiction.
Qed.

Lemma missing_precondition_witness :
  targetSubmit (H:=Example.host) (Some Example.jobItem) Example.world
  = (Returns tt, Example.world) /\
  workspacesRemove (H:=Example.host) None Example.world = (Returns tt, Example.world) /\
  downloadResults (H:=Example.host) (Some Example.targetItem) Example.world
  = (Returns tt, Example.world).
Proof.
  split; [|split].
  - apply (@missing_precondition_is_noop Example.host (Some Example.jobItem) Example.world).
    intros i [= <-]. discriminate.
  - apply (@missing_precondition_is_noop Example.host None Example.world).
    intros i. discriminate.
  - apply (@missing_precondition_is_noop Example.host (Some Example.targetItem) Example.world).
    intros i [= <-]. discriminate.
Defined.

(** ** Token acquisition *)

(** C10: in targetSubmit and in downloadResults, when getTokenForWorkspace
    is called and answers a falsy token, the handler returns normally
    right after that call: nothing is submitted or fetched, no message is
    shown, the registry and the secret store are as before. *)
Theorem falsy_token_returns_silently `{Host} (arg : option WorkspaceTreeItem) (w : World)
    (ws : WorkspaceConnection.t) (token : option string) :
  getTokenForWorkspace ws = Returns token ->
  truthy_opt token = None ->
  (In (GetTokenForWorkspace ws) (emitted w (targetSubmit arg w).2) ->
     (targetSubmit arg w).1 = Returns tt
     /\ (exists b, emitted w (targetSubmit arg w).2
                   = [GetQirForActiveWindow b; GetTokenForWorkspace ws])
     /\ existsb (fun e => is_submit e || is_fetch e || is_message e || is_cycle e)
                (emitted w (targetSubmit arg w).2) = false
     /\ treeState (targetSubmit arg w).2 = treeState w
     /\ secrets (targetSubmit arg w).2 = secrets w) /\
  (In (GetTokenForWorkspace ws) (emitted w (downloadResults arg w).2) ->
     (downloadResults arg w).1 = Returns tt
     /\ emitted w (downloadResults arg w).2 = [GetTokenForWorkspace ws]
     /\ existsb (fun e => is_submit e || is_fetch e || is_message e || is_cycle e)
                (emitted w (downloadResults arg w).2) = false
     /\ treeState (downloadResults arg w).2 = treeState w
     /\ secrets (downloadResults arg w).2 = secrets w).
Proof.
  intros Tok Falsy. split; run_cmd; item_case arg w; host_case; norm_trace;
    intros D; member_cases; try congruence; repeat split; eauto.
Qed.

Lemma falsy_token_witness :
  emitted Example.world
    (targetSubmit (H:=Example.host_token (Returns (Some EmptyString)))
                  (Some Example.targetItem) Example.world).2
  = [GetQirForActiveWindow false; GetTokenForWorkspace Example.wsA]
  /\ emitted Example.world
       (downloadResults (H:=Example.host_token (Returns None))
                        (Some Example.jobItem) Example.world).2
     = [GetTokenForWorkspace Example.wsA].
Proof.
  split.
  - destruct (@falsy_token_returns_silently (Example.host_token (Returns (Some EmptyString)))
                (Some Example.targetItem) Example.world Example.wsA (Some EmptyString)
                eq_refl eq_refl) as [T _].
    destruct T as (_ & [b E] & _).
    + vm_compute. tauto.
    + rewrite E. f_equal. vm_compute in E. congruence.
  - destruct (@falsy_token_returns_silently (Example.host_token (Returns None))
                (Some Example.jobItem) Example.world Example.wsA None
                eq_refl eq_refl) as [_ D].
    apply D. vm_compute. tauto.
Defined.

(** ** Submitting to a target *)

(** C3, as the code has it: a failure of program generation never reaches
    submitJob, so that no job is created, and starts no cycle, and a
    QirGenerationError is shown with its own message, as a plain (not
    modal) error message; a failure of token acquisition or of submitJob
    is logged and then shown as the modal error "Failed to submit the job
    to Azure.", no job is created and no cycle is started: the run is
    the calls made up to the failure, the log and the message. *)
Theorem fatal_submission_errors `{Host} (arg : option WorkspaceTreeItem) (w : World)
    (item : WorkspaceTreeItem) (target : Target.t) :
  (resolve arg w).1 = Returns (Some item) ->
  itemData item = TargetData target ->
  let adaptive := supportsAdaptive (Target.id target) in
  let uris := mkUris (WorkspaceConnection.endpointUri (workspace item))
                     (WorkspaceConnection.id (workspace item)) in
  let providerId := default EmptyString (head (split "." (Target.id target))) in
  let evs := emitted w (targetSubmit arg w).2 in
  let failed e :=
    [LogError "Failed to submit job. ";
     ShowErrorMessage "Failed to submit the job to Azure." true
       (if exn_instanceofError e then Some (exn_message e) else None)] in
  (forall e, getQirForActiveWindow adaptive = Throws e ->
     (targetSubmit arg w).1 = Returns tt
     /\ existsb is_submit evs = false
     /\ ~ job_created evs
     /\ existsb is_cycle evs = false
     /\ existsb is_modal_error evs = false
     /\ (exn_name e = "QirGenerationError" ->
         evs = [GetQirForActiveWindow adaptive;
                ShowErrorMessage (exn_message e) false None])) /\
  (forall qir e,
     getQirForActiveWindow adaptive = Returns qir ->
     truthy qir = true ->
     (getTokenForWorkspace (workspace item) = Throws e
      \/ exists t token,
           getTokenForWorkspace (workspace item) = Returns t
           /\ truthy_opt t = Some token
           /\ submitJob token uris qir providerId (Target.id target) = Throws e) ->
     (targetSubmit arg w).1 = Returns tt
     /\ existsb is_cycle evs = false
     /\ last evs = Some (ShowErrorMessage "Failed to submit the job to Azure." true
                           (if exn_instanceofError e then Some (exn_message e) else None))
     /\ treeState (targetSubmit arg w).2 = treeState w
     /\ ~ job_created evs
     /\ (getTokenForWorkspace (workspace item) = Throws e ->
         evs = [GetQirForActiveWindow adaptive;
                GetTokenForWorkspace (workspace item)] ++ failed e)
     /\ (forall t token,
           getTokenForWorkspace (workspace item) = Returns t ->
           truthy_opt t = Some token ->
           evs = [GetQirForActiveWindow adaptive;
                  GetTokenForWorkspace (workspace item);
                  SubmitJob token uris qir providerId (Target.id target)] ++ failed e)).
Proof.
  intros R D. cbv zeta. unfold resolve in R. simpl in R. run_cmd.
  destruct (match arg with Some a => Some a | None => currentTreeItem w end) as [i|];
    [|discriminate].
  injection R as ->. rewrite D. split.
  - intros e Q. rewrite Q. host_case; norm_trace; split_and!; try reflexivity.
    all: try (intros (? & ? & ? & ? & ? & ? & M & _); simpl in M; member_cases).
    all: intros N;
      match goal with E : String.eqb _ _ = false |- _ => apply String.eqb_neq in E end;
      contradiction.
  - intros qir e Q T [K|(t & token & K & Tr & S)]; rewrite Q; simpl; rewrite T; simpl;
      rewrite K; simpl.
    + destruct (exn_instanceofError e); norm_trace; split_and!; try reflexivity.
      all: try (intros (? & ? & ? & ? & ? & ? & M & _); simpl in M; member_cases).
      all: intros; discriminate.
    + rewrite Tr. simpl. rewrite S.
      destruct (exn_instanceofError e); norm_trace; split_and!; try reflexivity.
      all: try (intros (? & ? & ? & ? & ? & ? & M & A); simpl in M; member_cases;
                congruence).
      all: try (intros; discriminate).
      all: intros t' token' [= <-] Tr'; rewrite Tr in Tr'; injection Tr' as <-;
        reflexivity.
Qed.

Lemma fatal_submission_errors_witness :
  emitted Example.world
    (targetSubmit (H:=Example.host_submit (Throws Example.NetworkError))
                  (Some Example.targetItem) Example.world).2
  = [GetQirForActiveWindow false;
     GetTokenForWorkspace Example.wsA;
     SubmitJob "bearer-1" (mkUris "https://alpha.example" "ws-a")
               "%Result = type opaque" "ionq" "ionq.simulator";
     LogError "Failed to submit job. ";
     ShowErrorMessage "Failed to submit the job to Azure." true
       (Some "503 Service Unavailable")]
  /\ ~ job_created (H:=Example.host_submit (Throws Example.NetworkError))
        (emitted Example.world
           (targetSubmit (H:=Example.host_submit (Throws Example.NetworkError))
                         (Some Example.targetItem) Example.world).2)
  /\ emitted Example.world
       (targetSubmit (H:=Example.host_token (Throws Example.NetworkError))
                     (Some Example.targetItem) Example.world).2
     = [GetQirForActiveWindow false;
        GetTokenForWorkspace Example.wsA;
        LogError "Failed to submit job. ";
        ShowErrorMessage "Failed to submit the job to Azure." true
          (Some "503 Service Unavailable")]
  /\ emitted Example.world
       (targetSubmit (H:=Example.host_qir (Throws Example.QirGenerationError))
                     (Some Example.targetItem) Example.world).2
     = [GetQirForActiveWindow false;
        ShowErrorMessage "The program has compilation errors" false None].
Proof.
  split_and!.
  - destruct (@fatal_submission_errors (Example.host_submit (Throws Example.NetworkError))
                (Some Example.targetItem) Example.world Example.targetItem
                (Target.mk "ionq.simulator") eq_refl eq_refl) as [_ S].
    destruct (S "%Result = type opaque" Example.NetworkError) as (_ & _ & _ & _ & _ & _ & E).
    + reflexivity.
    + reflexivity.
    + right. exists (Some "bearer-1"), "bearer-1". repeat split; reflexivity.
    + apply (E (Some "bearer-1") "bearer-1"); reflexivity.
  - destruct (@fatal_submission_errors (Example.host_submit (Throws Example.NetworkError))
                (Some Example.targetItem) Example.world Example.targetItem
                (Target.mk "ionq.simulator") eq_refl eq_refl) as [_ S].
    destruct (S "%Result = type opaque" Example.NetworkError) as (_ & _ & _ & _ & J & _).
    + reflexivity.
    + reflexivity.
    + right. exists (Some "bearer-1"), "bearer-1". repeat split; reflexivity.
    + exact J.
  - destruct (@fatal_submission_errors (Example.host_token (Throws Example.NetworkError))
                (Some Example.targetItem) Example.world Example.targetItem
                (Target.mk "ionq.simulator") eq_refl eq_refl) as [_ S].
    destruct (S "%Result = type opaque" Example.NetworkError) as (_ & _ & _ & _ & _ & E & _).
    + reflexivity.
    + reflexivity.
    + left. reflexivity.
    + apply E. reflexivity.
  - destruct (@fatal_submission_errors (Example.host_qir (Throws Example.QirGenerationError))
                (Some Example.targetItem) Example.world Example.targetItem
                (Target.mk "ionq.simulator") eq_refl eq_refl) as [G _].
    apply (G Example.QirGenerationError).
    + reflexivity.
    + reflexivity.
Defined.

(** C3 as stated fails: program generation throws a QirGenerationError,
    and the message shown is not modal. *)
Lemma generation_failure_is_not_modal :
  @getQirForActiveWindow (Example.host_qir (Throws Example.QirGenerationError)) false
  = Throws Example.QirGenerationError
  /\ emitted Example.world
       (targetSubmit (H:=Example.host_qir (Throws Example.QirGenerationError))
                     (Some Example.targetItem) Example.world).2
     = [GetQirForActiveWindow false;
        ShowErrorMessage "The program has compilation errors" false None]
  /\ existsb is_modal_error
       (emitted Example.world
          (targetSubmit (H:=Example.host_qir (Throws Example.QirGenerationError))
                        (Some Example.targetItem) Example.world).2)
     = false.
Proof. repeat split; vm_compute; reflexivity. Qed.

(** A failure of program generation that is not a QirGenerationError is
    shown to nobody. *)
Lemma other_generation_failure_is_silent :
  emitted Example.world
    (targetSubmit (H:=Example.host_qir (Throws Example.NetworkError))
                  (Some Example.targetItem) Example.world).2
  = [GetQirForActiveWindow false].
Proof. vm_compute. reflexivity. Qed.

(** C4: when QIR generation gives a non-empty program, a token is
    obtained and submitJob answers a job id, targetSubmit starts a refresh
    cycle for the target's workspace with that job id; and whenever
    targetSubmit starts a cycle, it is that one, after submitJob answered
    the job id. *)
Theorem submit_starts_prioritized_cycle `{Host} (arg : option WorkspaceTreeItem) (w : World) :
  (forall item target qir t token j jobId,
     (resolve arg w).1 = Returns (Some item) ->
     itemData item = TargetData target ->
     getQirForActiveWindow (supportsAdaptive (Target.id target)) = Returns qir ->
     truthy qir = true ->
     getTokenForWorkspace (workspace item) = Returns t ->
     truthy_opt t = Some token ->
     submitJob token
               (mkUris (WorkspaceConnection.endpointUri (workspace item))
                       (WorkspaceConnection.id (workspace item)))
               qir (default EmptyString (head (split "." (Target.id target)))) (Target.id target)
     = Returns j ->
     truthy_opt j = Some jobId ->
     (targetSubmit arg w).1 = Returns tt
     /\ emitted w (targetSubmit arg w).2
        = [GetQirForActiveWindow (supportsAdaptive (Target.id target));
           GetTokenForWorkspace (workspace item);
           SubmitJob token
                     (mkUris (WorkspaceConnection.endpointUri (workspace item))
                             (WorkspaceConnection.id (workspace item)))
                     qir (default EmptyString (head (split "." (Target.id target))))
                     (Target.id target);
           StartRefreshCycle (workspace item) (Some jobId)]) /\
  (forall ws newJobId,
     In (StartRefreshCycle ws newJobId) (emitted w (targetSubmit arg w).2) ->
     exists item target qir token jobId,
       (resolve arg w).1 = Returns (Some item)
       /\ itemData item = TargetData target
       /\ ws = workspace item
       /\ newJobId = Some jobId
       /\ jobId <> EmptyString
       /\ getQirForActiveWindow (supportsAdaptive (Target.id target)) = Returns qir
       /\ submitJob token
                    (mkUris (WorkspaceConnection.endpointUri (workspace item))
                            (WorkspaceConnection.id (workspace item)))
                    qir (default EmptyString (head (split "." (Target.id target))))
                    (Target.id target)
          = Returns (Some jobId)
       /\ length (List.filter is_cycle (emitted w (targetSubmit arg w).2)) = 1%nat).
Proof.
  split.
  - intros item target qir t token j jobId R D Q T K Tr S J.
    unfold resolve in R. simpl in R. run_cmd.
    destruct (match arg with Some a => Some a | None => currentTreeItem w end) as [i|];
      [|discriminate].
    injection R as ->. rewrite D, Q. simpl. rewrite T. simpl. rewrite K. simpl.
    rewrite Tr. simpl. rewrite S. simpl. rewrite J. norm_trace. split; reflexivity.
  - intros ws newJobId. unfold resolve. run_cmd. item_case arg w; host_case; norm_trace;
      intros M; member_cases.
    match goal with E : truthy_opt _ = Some ?j |- _ =>
      apply truthy_opt_Some in E; destruct E as [-> N] end.
    match goal with E : truthy_opt _ = Some ?j |- _ =>
      apply truthy_opt_Some in E; destruct E as [-> _] end.
    eexists _, _, _, _, _. repeat split; eauto.
Qed.

Lemma submit_starts_prioritized_cycle_witness :
  emitted Example.world
    (targetSubmit (H:=Example.host) (Some Example.targetItem) Example.world).2
  = [GetQirForActiveWindow false;
     GetTokenForWorkspace Example.wsA;
     SubmitJob "bearer-1" (mkUris "https://alpha.example" "ws-a")
               "%Result = type opaque" "ionq" "ionq.simulator";
     StartRefreshCycle Example.wsA (Some "job-9")]
  /\ length (List.filter is_cycle
               (emitted Example.world
                  (targetSubmit (H:=Example.host) (Some Example.targetItem)
                                Example.world).2))
     = 1%nat.
Proof.
  destruct (@submit_starts_prioritized_cycle Example.host (Some Example.targetItem)
              Example.world) as [S O].
  split.
  - apply (S Example.targetItem (Target.mk "ionq.simulator") "%Result = type opaque"
             (Some "bearer-1") "bearer-1" (Some "job-9") "job-9");
      reflexivity.
  - destruct (O Example.wsA (Some "job-9")) as (? & ? & ? & ? & ? & ? & ? & ? & ? & ? & ? & ? & L).
    + vm_compute. tauto.
    + exact L.
Defined.

(** ** Selection *)

(** C8: after a selection change the three context keys hold the flags of
    the selection: supports-QIR iff one item is selected, it is a target
    and targetSupportQir accepts its label (the empty string when there is
    no label); supports-download iff one item is selected and it is a job
    with status "Succeeded" and a non-empty outputDataUri; is-workspace
    iff one item is selected and it is a workspace.  The captured item is
    the selected one, or none. *)
Theorem selection_sets_context_flags `{Host} (selection : list WorkspaceTreeItem) (w : World) :
  exists supportsQir supportsDownload isWorkspace w',
    onDidChangeSelection selection w = (Returns tt, w')
    /\ contextKeys w' !! "qsharp-vscode.treeItemSupportsQir" = Some supportsQir
    /\ contextKeys w' !! "qsharp-vscode.treeItemSupportsDownload" = Some supportsDownload
    /\ contextKeys w' !! "qsharp-vscode.treeItemIsWorkspace" = Some isWorkspace
    /\ emitted w w' = [SetContext "qsharp-vscode.treeItemSupportsQir" supportsQir;
                       SetContext "qsharp-vscode.treeItemSupportsDownload" supportsDownload;
                       SetContext "qsharp-vscode.treeItemIsWorkspace" isWorkspace]
    /\ (supportsQir = true <->
        exists item, selection = [item] /\ type item = "target"
                     /\ targetSupportQir (default EmptyString (label item)) = true)
    /\ (supportsDownload = true <->
        exists item job uri,
          selection = [item] /\ type item = "job" /\ itemData item = JobData job
          /\ Job.status job = "Succeeded"
          /\ Job.outputDataUri job = Some uri /\ uri <> EmptyString)
    /\ (isWorkspace = true <-> exists item, selection = [item] /\ type item = "workspace")
    /\ currentTreeItem w' = match selection with [item] => Some item | _ => None end
    /\ treeState w' = treeState w /\ secrets w' = secrets w.
Proof.
  exists (supportsQir_of selection), (supportsDownload_of selection),
         (isWorkspace_of selection).
  eexists. split; [reflexivity|]. simpl.
  split; [by simplify_map_eq|]. split; [by simplify_map_eq|]. split; [by simplify_map_eq|].
  split; [norm_trace; reflexivity|].
  split; [|split; [|split; [|auto]]].
  - unfold supportsQir_of, type. split.
    + destruct selection as [|item [|]]; try discriminate.
      destruct (itemData item) eqn:E; try discriminate.
      intros Q. exists item. rewrite E. auto.
    + intros (item & -> & T & Q). destruct (itemData item); try discriminate. exact Q.
  - unfold supportsDownload_of, type. split.
    + destruct selection as [|item [|]]; try discriminate.
      destruct (itemData item) as [| | |job] eqn:E; try discriminate.
      intros [S U]%andb_prop. apply String.eqb_eq in S.
      apply bool_decide_eq_true in U. destruct U as [uri U].
      apply truthy_opt_Some in U. destruct U as [U N].
      exists item, job, uri. rewrite E. auto 10.
    + intros (item & job & uri & -> & _ & -> & S & U & N).
      rewrite U. apply andb_true_intro. split; [by apply String.eqb_eq|].
      apply bool_decide_eq_true. exists uri. apply truthy_opt_Some. auto.
  - unfold isWorkspace_of, type. split.
    + destruct selection as [|item [|]]; try discriminate.
      destruct (itemData item) eqn:E; try discriminate.
      intros _. exists item. rewrite E. auto.
    + intros (item & -> & T). destruct (itemData item); try discriminate. reflexivity.
Qed.

(** ** Persisting the workspace list *)

Lemma lookup_keys_values (r : gmap string WorkspaceConnection.t)
    (l : list (string * WorkspaceConnection.t)) :
  (forall k v, (k, v) ∈ l -> r !! k = Some v) ->
  map (fun i => Registry.get i r) (l.*1) = map Some (l.*2).
Proof.
  induction l as [|[k v] l IH]; intros A; simpl; [reflexivity|].
  unfold Registry.get at 1. rewrite (A k v) by apply list_elem_of_here.
  f_equal. apply IH. intros k' v' M. apply A. by apply list_elem_of_further.
Qed.

Lemma get_listIds (r : gmap string WorkspaceConnection.t) :
  map (fun i => Registry.get i r) (Registry.listIds r) = map Some (Registry.workspaces r).
Proof.
  apply lookup_keys_values. intros k v M. by apply elem_of_map_to_list.
Qed.

Lemma push_saved_all (l acc : list WorkspaceConnection.t) (w : World) :
  push_saved (map Some l) acc w = (Returns (acc ++ map savedRecord l), w).
Proof.
  revert acc. induction l as [|x l IH]; intros acc; simpl.
  - by rewrite app_nil_r.
  - rewrite IH. by rewrite <- app_assoc.
Qed.

Lemma saveWorkspaceList_run `{Host} (w : World) :
  saveWorkspaceList w
  = (Returns tt,
     let saved := map savedRecord (Registry.workspaces (treeState w)) in
     record (SecretsStore workspacesSecret (JSON_stringify saved))
       (with_secrets (insert workspacesSecret (JSON_stringify saved))
          (record (LogDebug "Saving workspaces: ") w))).
Proof.
  unfold saveWorkspaceList, getWorkspaceIds.
  cbv [mbind cmd_bind bind]. rewrite get_listIds, push_saved_all. reflexivity.
Qed.

(** C1: saveWorkspaceList stores once, under the key
    "qsharp-vscode.workspaces", the JSON encoding of one list that has,
    for each workspace the tree provider holds, a record with that
    workspace's id, name, endpointUri, tenantId and apiKey and with empty
    providers and jobs; nothing else in the secret store changes. *)
Theorem saveWorkspaceList_persists `{Host} (w : World) :
  exists saved w',
    saveWorkspaceList w = (Returns tt, w')
    /\ workspacesSecret = "qsharp-vscode.workspaces"
    /\ secrets w' = <[workspacesSecret := JSON_stringify saved]> (secrets w)
    /\ List.filter is_store (emitted w w')
       = [SecretsStore workspacesSecret (JSON_stringify saved)]
    /\ Forall2 (fun elem r =>
                  WorkspaceConnection.id r = WorkspaceConnection.id elem
                  /\ WorkspaceConnection.name r = WorkspaceConnection.name elem
                  /\ WorkspaceConnection.endpointUri r = WorkspaceConnection.endpointUri elem
                  /\ WorkspaceConnection.tenantId r = WorkspaceConnection.tenantId elem
                  /\ WorkspaceConnection.apiKey r = WorkspaceConnection.apiKey elem
                  /\ WorkspaceConnection.providers r = []
                  /\ WorkspaceConnection.jobs r = [])
               (Registry.workspaces (treeState w)) saved
    /\ treeState w' = treeState w.
Proof.
  exists (map savedRecord (Registry.workspaces (treeState w))). eexists.
  split; [apply saveWorkspaceList_run|]. simpl.
  split; [reflexivity|]. split; [reflexivity|]. split; [norm_trace; reflexivity|].
  split; [|reflexivity].
  induction (Registry.workspaces (treeState w)) as [|x l IH]; simpl; constructor; auto.
  repeat split.
Qed.

Example saveWorkspaceList_example :
  (saveWorkspaceList (H:=Example.host)
     (mkWorld (Registry.upsert_all [Example.wsA; Example.wsB] ∅) ∅ None ∅ [])).2.(secrets)
  !! "qsharp-vscode.workspaces"
  = Some (Example.stringify Example.saved).
Proof. vm_compute. reflexivity. Qed.

(** C9: when discovery answers a workspace, workspacesAdd upserts it into
    the registry and then persists the list read from the registry after
    the upsert; when discovery answers no workspace, the registry and the
    secret store are left as they were. *)
Theorem workspacesAdd_upserts_then_persists `{Host} (w : World) :
  (forall workspace,
     queryWorkspaces = Returns (Some workspace) ->
     let r := Registry.upsert workspace (treeState w) in
     let saved := JSON_stringify (map savedRecord (Registry.workspaces r)) in
     (workspacesAdd w).1 = Returns tt
     /\ treeState (workspacesAdd w).2 = r
     /\ secrets (workspacesAdd w).2 = <[workspacesSecret := saved]> (secrets w)
     /\ emitted w (workspacesAdd w).2
        = [QueryWorkspaces; DidChangeTreeData; LogDebug "Saving workspaces: ";
           SecretsStore workspacesSecret saved; StartRefreshCycle workspace None]
     /\ In (savedRecord workspace) (map savedRecord (Registry.workspaces r))) /\
  (queryWorkspaces = Returns None ->
     (workspacesAdd w).1 = Returns tt
     /\ treeState (workspacesAdd w).2 = treeState w
     /\ secrets (workspacesAdd w).2 = secrets w
     /\ emitted w (workspacesAdd w).2 = [QueryWorkspaces]).
Proof.
  split.
  - intros workspace Q. cbv zeta. unfold workspacesAdd, call, updateWorkspace.
    cbv [mbind cmd_bind bind]. rewrite Q, saveWorkspaceList_run.
    unfold startRefreshCycle, emit. simpl.
    split; [reflexivity|]. split; [reflexivity|]. split; [reflexivity|].
    split; [norm_trace; reflexivity|].
    apply in_map. apply list_elem_of_In. apply list_elem_of_fmap.
    exists (WorkspaceConnection.id workspace, workspace). split; [reflexivity|].
    apply elem_of_map_to_list. apply lookup_insert_eq.
  - intros Q. unfold workspacesAdd, call. cbv [mbind cmd_bind bind]. rewrite Q. simpl.
    repeat split. norm_trace. reflexivity.
Qed.

Lemma workspacesAdd_witness :
  secrets (workspacesAdd (H:=Example.host) Example.world).2
  = <[workspacesSecret := Example.stringify Example.saved]> ∅
  /\ secrets (workspacesAdd (H:=Example.host_query (Returns None)) Example.world).2 = ∅.
Proof.
  split.
  - destruct (@workspacesAdd_upserts_then_persists Example.host Example.world) as [A _].
    destruct (A Example.wsB eq_refl) as (_ & _ & S & _).
    rewrite S. reflexivity.
  - destruct (@workspacesAdd_upserts_then_persists
                (Example.host_query (Returns None)) Example.world) as [_ N].
    destruct (N eq_refl) as (_ & _ & S & _). exact S.
Defined.

(** ** The registry *)

Lemma listIds_spec (r : gmap string WorkspaceConnection.t) (i : string) :
  In i (Registry.listIds r) <-> is_Some (Registry.get i r).
Proof.
  unfold Registry.listIds, Registry.get. rewrite <- list_elem_of_In, list_elem_of_fmap.
  split.
  - intros [[k v] [-> M]]. apply elem_of_map_to_list in M. simpl. eauto.
  - intros [v M]. exists (i, v). split; [reflexivity|]. by apply elem_of_map_to_list.
Qed.

Lemma upsert_all_other (ws : list WorkspaceConnection.t) (i : string)
    (r : gmap string WorkspaceConnection.t) :
  (forall w, In w ws -> WorkspaceConnection.id w <> i) ->
  Registry.get i (Registry.upsert_all ws r) = Registry.get i r.
Proof.
  revert r. induction ws as [|x ws IH]; intros r N; simpl; [reflexivity|].
  rewrite IH by (intros w M; apply N; by right).
  unfold Registry.get, Registry.upsert. apply lookup_insert_ne. apply N. by left.
Qed.

(** C5: after any run of upserts, [get] of an id answers the record of the
    last upsert for that id, whole: its providers and jobs are that
    call's, whatever earlier calls for the id carried. *)
Theorem upsert_last_wins (before after : list WorkspaceConnection.t)
    (w : WorkspaceConnection.t) (r : gmap string WorkspaceConnection.t) :
  (forall w', In w' after -> WorkspaceConnection.id w' <> WorkspaceConnection.id w) ->
  Registry.get (WorkspaceConnection.id w) (Registry.upsert_all (before ++ w :: after) r)
  = Some w.
Proof.
  intros Last. unfold Registry.upsert_all. rewrite foldl_app. simpl.
  fold (Registry.upsert_all before r).
  fold (Registry.upsert_all after (Registry.upsert w (Registry.upsert_all before r))).
  rewrite upsert_all_other by exact Last.
  unfold Registry.get, Registry.upsert. apply lookup_insert_eq.
Qed.

Lemma upsert_last_wins_witness :
  Registry.get "ws-a"
    (Registry.upsert_all
       [Example.wsA;
        RefreshCycle.with_snapshot Example.wsA [] [Example.jobDone];
        Example.wsB] ∅)
  = Some (RefreshCycle.with_snapshot Example.wsA [] [Example.jobDone]).
Proof.
  apply (upsert_last_wins [Example.wsA]
           [Example.wsB] (RefreshCycle.with_snapshot Example.wsA [] [Example.jobDone]) ∅).
  intros w' [<-|[]]. discriminate.
Defined.

(** [remove] then [get] answers nothing, for any id. *)
Lemma remove_get (i : string) (r : gmap string WorkspaceConnection.t) :
  Registry.get i (Registry.remove i r) = None.
Proof. apply lookup_delete_eq. Qed.

(** ** Loading the saved workspaces *)

Lemma load_loop (workspaces : list WorkspaceConnection.t) (w : World) :
  for_of workspaces (fun workspace =>
                       updateWorkspace workspace;; startRefreshCycle workspace None) w
  = (Returns tt,
     mkWorld (Registry.upsert_all workspaces (treeState w)) (secrets w)
             (currentTreeItem w) (contextKeys w) (trace w ++ loaded workspaces)).
Proof.
  revert w. induction workspaces as [|x l IH]; intros w; simpl.
  - unfold ret. rewrite app_nil_r. by destruct w.
  - cbv [mbind cmd_bind bind updateWorkspace startRefreshCycle emit]. rewrite IH. simpl.
    by rewrite <- !app_assoc.
Qed.

Lemma upsert_all_keeps (ws : list WorkspaceConnection.t) (i : string)
    (r : gmap string WorkspaceConnection.t) :
  is_Some (Registry.get i r) -> is_Some (Registry.get i (Registry.upsert_all ws r)).
Proof.
  revert r. induction ws as [|x ws IH]; intros r S; simpl; [exact S|].
  apply IH. unfold Registry.get, Registry.upsert.
  destruct (decide (WorkspaceConnection.id x = i)) as [->|N].
  - rewrite lookup_insert_eq. eauto.
  - by rewrite lookup_insert_ne.
Qed.

Lemma upsert_all_registers (ws : list WorkspaceConnection.t) (w : WorkspaceConnection.t)
    (r : gmap string WorkspaceConnection.t) :
  In w ws -> In (WorkspaceConnection.id w) (Registry.listIds (Registry.upsert_all ws r)).
Proof.
  intros M. apply listIds_spec. revert r.
  induction ws as [|x ws IH]; intros r; [destruct M|].
  destruct M as [->|M]; simpl; [|by apply IH].
  apply upsert_all_keeps. unfold Registry.get, Registry.upsert.
  rewrite lookup_insert_eq. eauto.
Qed.

Lemma filter_cycle_loaded (workspaces : list WorkspaceConnection.t) :
  List.filter is_cycle (loaded workspaces)
  = map (fun workspace => StartRefreshCycle workspace None) workspaces.
Proof.
  induction workspaces as [|x l IH]; simpl; [reflexivity|]. by rewrite IH.
Qed.

(** C2: on initialization, when the secret store holds a saved list, each
    workspace of the list is passed to updateWorkspace, so that its id is
    among the provider's ids, and one refresh cycle is started for it, in
    the order of the list; when nothing is saved, the provider stays
    empty and no cycle is started. *)
Theorem initAzureWorkspaces_loads `{Host} (w : World) :
  (forall savedWorkspaces workspaces,
     secrets w !! workspacesSecret = Some savedWorkspaces ->
     savedWorkspaces <> EmptyString ->
     JSON_parse savedWorkspaces = Returns workspaces ->
     (initAzureWorkspaces w).1 = Returns tt
     /\ treeState (initAzureWorkspaces w).2 = Registry.upsert_all workspaces ∅
     /\ (forall workspace,
           In workspace workspaces ->
           In (WorkspaceConnection.id workspace)
              (Registry.listIds (treeState (initAzureWorkspaces w).2)))
     /\ emitted w (initAzureWorkspaces w).2
        = LogDebug "Loading workspaces: " :: loaded workspaces
     /\ List.filter is_cycle (emitted w (initAzureWorkspaces w).2)
        = map (fun workspace => StartRefreshCycle workspace None) workspaces) /\
  (secrets w !! workspacesSecret = None ->
     (initAzureWorkspaces w).1 = Returns tt
     /\ treeState (initAzureWorkspaces w).2 = ∅
     /\ emitted w (initAzureWorkspaces w).2 = [LogDebug "No saved workspaces found."]).
Proof.
  split.
  - intros s l S N P. unfold initAzureWorkspaces, secrets_get, emit, lift.
    cbv [mbind cmd_bind bind]. simpl. rewrite S.
    assert (truthy_opt (Some s) = Some s) as -> by (by apply truthy_opt_Some).
    simpl. rewrite P, load_loop. simpl.
    split; [reflexivity|]. split; [reflexivity|].
    split; [intros x M; by apply upsert_all_registers|].
    assert (emitted w
              {| treeState := Registry.upsert_all l ∅; secrets := secrets w;
                 currentTreeItem := None; contextKeys := contextKeys w;
                 trace := (trace w ++ [LogDebug "Loading workspaces: "]) ++ loaded l |}
            = LogDebug "Loading workspaces: " :: loaded l) as ->.
    { apply emitted_app. simpl. by rewrite <- app_assoc. }
    split; [reflexivity|]. simpl. apply filter_cycle_loaded.
  - intros S. unfold initAzureWorkspaces, secrets_get, emit.
    cbv [mbind cmd_bind bind]. simpl. rewrite S. simpl.
    repeat split. norm_trace. reflexivity.
Qed.

Lemma initAzureWorkspaces_witness :
  List.filter is_cycle
    (emitted Example.world_saved (initAzureWorkspaces (H:=Example.host) Example.world_saved).2)
  = [StartRefreshCycle (savedRecord Example.wsA) None;
     StartRefreshCycle (savedRecord Example.wsB) None]
  /\ treeState (initAzureWorkspaces (H:=Example.host) Example.world).2 = ∅.
Proof.
  split.
  - destruct (@initAzureWorkspaces_loads Example.host Example.world_saved) as [L _].
    destruct (L (Example.stringify Example.saved) Example.saved) as (_ & _ & _ & _ & C).
    + reflexivity.
    + discriminate.
    + reflexivity.
    + exact C.
  - destruct (@initAzureWorkspaces_loads Example.host Example.world) as [_ N].
    destruct N as (_ & E & _); [reflexivity | exact E].
Defined.

(** ** Supersession of refresh cycles *)

Section Supersession.

Import RefreshCycle.

Variable terminal : string -> bool.

Local Abbreviation tick := (RefreshCycle.tick terminal).
Local Abbreviation step := (RefreshCycle.step terminal).
Local Abbreviation run := (RefreshCycle.run terminal).

Lemma run_snoc (steps : list Step) (x : Step) (s : State) :
  run (steps ++ [x]) s = step x (run steps s).
Proof. unfold RefreshCycle.run. by rewrite foldl_app. Qed.

(** A tick either leaves the registry alone, for one of the reasons the
    cycle does not fetch, or writes the fetched snapshot under the id of
    the cycle's workspace. *)
Lemma tick_registry (h : nat) (providers : list Provider.t) (jobs : list Job.t) (s : State) :
  (registry (tick h providers jobs s) = registry s
   /\ (cycles s !! h = None
       \/ exists c, cycles s !! h = Some c
                    /\ (cycle_running c = false
                        \/ generation s !! cycle_workspace c <> Some (cycle_generation c)
                        \/ registry s !! cycle_workspace c = None)))
  \/ (exists c w,
        cycles s !! h = Some c
        /\ cycle_running c = true
        /\ generation s !! cycle_workspace c = Some (cycle_generation c)
        /\ registry s !! cycle_workspace c = Some w
        /\ registry (tick h providers jobs s)
           = Registry.upsert (with_snapshot w providers jobs) (registry s)).
Proof.
  unfold RefreshCycle.tick.
  destruct (cycles s !! h) as [c|] eqn:C; [|left; auto].
  destruct (cycle_running c) eqn:R; simpl.
  2: { left. split; [reflexivity|]. right. exists c. auto. }
  unfold superseded. case_bool_decide as G; simpl.
  2: { left. split; [reflexivity|]. right. exists c. auto. }
  unfold Registry.get. destruct (registry s !! cycle_workspace c) as [w|] eqn:W.
  2: { left. split; [reflexivity|]. right. exists c. auto. }
  right. exists c, w. destruct (pending terminal (cycle_job c) jobs); auto 6.
Qed.

Lemma tick_generation (h : nat) (providers : list Provider.t) (jobs : list Job.t) (s : State) :
  generation (tick h providers jobs s) = generation s.
Proof.
  unfold RefreshCycle.tick. repeat case_match; reflexivity.
Qed.

Lemma tick_cycles (h : nat) (providers : list Provider.t) (jobs : list Job.t) (s : State) :
  cycles (tick h providers jobs s) = cycles s
  \/ cycles (tick h providers jobs s) = alter stopped h (cycles s).
Proof.
  unfold RefreshCycle.tick. repeat case_match; auto.
Qed.

(** A cycle whose generation is not the current one of its workspace
    leaves the registry alone, and is not running afterwards. *)
Lemma tick_superseded (h : nat) (providers : list Provider.t) (jobs : list Job.t)
    (s : State) (c : Cycle) :
  cycles s !! h = Some c ->
  generation s !! cycle_workspace c <> Some (cycle_generation c) ->
  registry (tick h providers jobs s) = registry s
  /\ running h (tick h providers jobs s) = false.
Proof.
  intros C G. unfold RefreshCycle.tick, running. rewrite C.
  destruct (cycle_running c) eqn:R; simpl.
  - unfold superseded. rewrite bool_decide_eq_false_2 by exact G. simpl.
    split; [reflexivity|]. rewrite list_lookup_alter_eq, C. reflexivity.
  - rewrite C. auto.
Qed.

(** Steps keep the cycles there are, with their workspace and generation;
    a cycle that is not running stays so. *)
Lemma step_cycle_kept (x : Step) (s : State) (h : nat) (c : Cycle) :
  cycles s !! h = Some c ->
  exists c', cycles (step x s) !! h = Some c'
             /\ cycle_workspace c' = cycle_workspace c
             /\ cycle_generation c' = cycle_generation c
             /\ (cycle_running c = false -> cycle_running c' = false).
Proof.
  intros C. destruct x as [j job|h' p jb|h'|w|k]; simpl; eauto.
  - exists c. rewrite lookup_app_l by (by eapply lookup_lt_Some). auto.
  - destruct (tick_cycles h' p jb s) as [->| ->]; eauto.
    destruct (decide (h' = h)) as [->|N].
    + rewrite list_lookup_alter_eq, C. simpl. eauto.
    + rewrite list_lookup_alter_ne by exact N. eauto.
Qed.

(** Going back over a step: a cycle was there before, the same but
    perhaps running, or the step started it. *)
Lemma step_cycle_origin (x : Step) (s : State) (h : nat) (c' : Cycle) :
  cycles (step x s) !! h = Some c' ->
  (exists c, cycles s !! h = Some c
             /\ cycle_workspace c' = cycle_workspace c
             /\ cycle_generation c' = cycle_generation c)
  \/ (exists j job, x = Start j job /\ cycle_workspace c' = j).
Proof.
  destruct x as [j job|h' p jb|h'|w|k]; simpl; eauto.
  - intros C. apply lookup_app_Some in C. destruct C as [C|[_ C]]; [eauto|].
    right. exists j, job. split; [reflexivity|].
    destruct (h - length (cycles s))%nat; [|by destruct n]. by injection C as <-.
  - destruct (tick_cycles h' p jb s) as [->| ->]; eauto.
    destruct (decide (h' = h)) as [->|N].
    + rewrite list_lookup_alter_eq. destruct (cycles s !! h) as [c|]; [|discriminate].
      intros [= <-]. eauto.
    + rewrite list_lookup_alter_ne by exact N. eauto.
Qed.

(** A step that is not a tick of cycle [h] leaves that cycle as it is. *)
Lemma step_cycle_untouched (x : Step) (s : State) (h : nat) (c : Cycle) :
  (forall p j, x <> Tick h p j) ->
  cycles s !! h = Some c ->
  cycles (step x s) !! h = Some c.
Proof.
  intros N C. destruct x as [j job|h' p jb|h'|w|k]; simpl; auto.
  - rewrite lookup_app_l by (by eapply lookup_lt_Some). exact C.
  - destruct (tick_cycles h' p jb s) as [->| ->]; auto.
    rewrite list_lookup_alter_ne; [exact C|]. intros ->. by eapply N.
Qed.

Lemma step_generation (x : Step) (s : State) (i : string) :
  foreign i x = true -> generation (step x s) !! i = generation s !! i.
Proof.
  destruct x as [j job|h' p jb|h'|w|k]; simpl; auto.
  - intros F. apply negb_true_iff, String.eqb_neq in F. by apply lookup_insert_ne.
  - intros _. by rewrite tick_generation.
Qed.

Lemma upsert_keyed (w : WorkspaceConnection.t) (r : gmap string WorkspaceConnection.t) :
  (forall k v, r !! k = Some v -> WorkspaceConnection.id v = k) ->
  forall k v, Registry.upsert w r !! k = Some v -> WorkspaceConnection.id v = k.
Proof.
  intros K k v. unfold Registry.upsert.
  destruct (decide (WorkspaceConnection.id w = k)) as [<-|N].
  - rewrite lookup_insert_eq. by intros [= <-].
  - rewrite lookup_insert_ne by exact N. apply K.
Qed.

Lemma step_keyed (x : Step) (s : State) : keyed s -> keyed (step x s).
Proof.
  intros K. destruct x as [j job|h' p jb|h'|w|k]; simpl; auto.
  - destruct (tick_registry h' p jb s) as [[E _]|(c & w & _ & _ & _ & _ & E)];
      unfold keyed; rewrite E; [exact K|]. by apply upsert_keyed.
  - unfold keyed. simpl. by apply upsert_keyed.
  - intros k' v. simpl. unfold Registry.remove. intros L.
    apply lookup_delete_Some in L. destruct L as [_ L]. by apply K.
Qed.

Lemma step_bounded (x : Step) (s : State) : bounded s -> bounded (step x s).
Proof.
  intros B h c' C. destruct x as [j job|h' p jb|h'|w|k]; simpl in *; eauto.
  - apply lookup_app_Some in C. destruct C as [C|[_ C]].
    + destruct (B h c' C) as (g & G & L).
      destruct (decide (j = cycle_workspace c')) as [->|N].
      * rewrite lookup_insert_eq, G. simpl. eexists. split; [reflexivity|]. lia.
      * rewrite lookup_insert_ne by exact N. eauto.
    + destruct (h - length (cycles s))%nat; [|by destruct n]. injection C as <-. simpl.
      rewrite lookup_insert_eq. eauto.
  - rewrite tick_generation.
    destruct (step_cycle_origin (Tick h' p jb) s h c' C) as [(c & C0 & -> & ->)|(? & ? & ? & _)];
      [eauto | discriminate].
Qed.

Lemma run_wf (steps : list Step) : keyed (run steps init) /\ bounded (run steps init).
Proof.
  induction steps as [|x steps [K B]] using rev_ind.
  - split; [intros k w | intros h c]; simpl; intros L; [by rewrite lookup_empty in L|].
    by rewrite lookup_nil in L.
  - rewrite run_snoc. split; [by apply step_keyed | by apply step_bounded].
Qed.

Lemma ticked_snoc (h : nat) (steps : list Step) (x : Step) :
  ticked h (steps ++ [x]) <-> ticked h steps \/ exists p j, x = Tick h p j.
Proof.
  unfold ticked. split.
  - intros (p & j & M). apply in_app_or in M. destruct M as [M|[E|[]]]; eauto.
  - intros [(p & j & M)|(p & j & ->)]; exists p, j; apply in_or_app; simpl; auto.
Qed.

Lemma tick_of (x : Step) (h : nat) :
  (exists p j, x = Tick h p j) \/ (forall p j, x <> Tick h p j).
Proof.
  destruct x as [| h' p j | | |]; try (right; discriminate).
  destruct (decide (h' = h)) as [->|N]; [eauto|].
  right. intros ? ? [= -> _ _]. contradiction.
Qed.

Lemma fetched_by_snoc (h : nat) (steps : list Step) (x : Step) (w : WorkspaceConnection.t) :
  fetched_by h steps w -> fetched_by h (steps ++ [x]) w.
Proof.
  intros (p & j & M & P & J). exists p, j. split; [|auto]. apply in_or_app. auto.
Qed.

(** Starting a cycle makes it the current one of its workspace. *)
Lemma start_current (s : State) (i : string) (job : option string) :
  bounded s ->
  current i (length (cycles s)) (start i job s)
  /\ running (length (cycles s)) (start i job s) = true.
Proof.
  intros B. unfold current, running, start. simpl.
  rewrite list_lookup_middle by reflexivity. simpl.
  split; [split|reflexivity].
  - eexists. split; [reflexivity|]. simpl. split; [reflexivity|]. apply lookup_insert_eq.
  - intros h c C W N. rewrite lookup_insert_eq. intros [= E].
    apply lookup_app_Some in C. destruct C as [C|[L C]].
    + destruct (B h c C) as (g & G & Le). rewrite W in G. rewrite G in E. simpl in E. lia.
    + destruct (h - length (cycles s))%nat eqn:D; [lia|by destruct n].
Qed.

Lemma step_current (x : Step) (s : State) (i : string) (h : nat) :
  foreign i x = true -> current i h s -> current i h (step x s).
Proof.
  intros F [(c & C & W & G) O]. split.
  - destruct (step_cycle_kept x s h c C) as (c' & C' & W' & G' & _).
    exists c'. rewrite step_generation by exact F. rewrite W', G'. auto.
  - intros h' c' C' W' N. rewrite step_generation by exact F.
    destruct (step_cycle_origin x s h' c' C') as [(c0 & C0 & E1 & E2)|(j & job & -> & E)].
    + rewrite E2. apply (O h' c0 C0); [congruence | exact N].
    + simpl in F. apply negb_true_iff, String.eqb_neq in F. congruence.
Qed.

(** What a step can do to the entry of workspace [i] when cycle [h] is
    its current cycle: remove it, leave it, or write a snapshot that
    cycle [h] fetched. *)
Lemma step_registry_at (x : Step) (s : State) (i : string) (h : nat) :
  keyed s -> current i h s -> foreign i x = true ->
  registry (step x s) !! i = None
  \/ ((forall p j, x = Tick h p j -> running h s = false)
      /\ registry (step x s) !! i = registry s !! i)
  \/ (exists p j w, x = Tick h p j
                    /\ registry (step x s) !! i = Some (with_snapshot w p j)).
Proof.
  intros K [(c & C & W & G) O] F.
  destruct x as [j job|h' p jb|h'|w|k]; simpl.
  - right. left. split; [discriminate | reflexivity].
  - destruct (tick_registry h' p jb s)
      as [[E Why]|(c' & w & C' & R' & G' & W' & E)]; rewrite E.
    + destruct (decide (h' = h)) as [->|N].
      * destruct Why as [Why|(c' & C' & Why)]; [congruence|].
        assert (c' = c) as -> by congruence.
        destruct Why as [R|[Gn|Rn]].
        -- right. left. split; [|reflexivity]. intros _ _ _. unfold running. by rewrite C.
        -- rewrite W in Gn. contradiction.
        -- left. by rewrite <- W.
      * right. left. split; [|reflexivity]. intros ? ? [= -> _ _]. contradiction.
    + pose proof (K _ _ W') as Id. unfold Registry.upsert. simpl.
      destruct (decide (h' = h)) as [->|N].
      * assert (c' = c) as -> by congruence.
        right. right. exists p, jb, w. split; [reflexivity|].
        rewrite Id, W. apply lookup_insert_eq.
      * right. left. split; [intros ? ? [= -> _ _]; contradiction|].
        apply lookup_insert_ne. rewrite Id. intros Wi.
        apply (O h' c' C' Wi N). by rewrite <- Wi.
  - right. left. split; [discriminate | reflexivity].
  - right. left. split; [discriminate|]. simpl in F.
    apply negb_true_iff, String.eqb_neq in F. by apply lookup_insert_ne.
  - destruct (decide (k = i)) as [->|N].
    + left. apply lookup_delete_eq.
    + right. left. split; [discriminate|]. by apply lookup_delete_ne.
Qed.

(** The invariant of a run in which cycle [c2] is the current cycle of
    workspace [i] and [c1] is an earlier cycle of it. *)
Lemma supersession_invariant (sched : list Step) (s2 : State) (i : string) (c1 c2 : nat) :
  keyed s2 -> current i c2 s2 -> running c2 s2 = true -> c1 <> c2 ->
  (exists c, cycles s2 !! c1 = Some c /\ cycle_workspace c = i) ->
  forallb (foreign i) sched = true ->
  keyed (run sched s2)
  /\ current i c2 (run sched s2)
  /\ (exists c, cycles (run sched s2) !! c1 = Some c /\ cycle_workspace c = i)
  /\ (ticked c1 sched -> running c1 (run sched s2) = false)
  /\ (ticked c2 sched \/ running c2 (run sched s2) = true)
  /\ (ticked c2 sched ->
      forall w, registry (run sched s2) !! i = Some w -> fetched_by c2 sched w).
Proof.
  intros K0 Cur0 R0 Ne E0.
  induction sched as [|x sched IH] using rev_ind; intros F.
  - simpl. repeat split; auto.
    + by destruct Cur0.
    + by destruct Cur0.
    + intros (p & j & []).
    + intros (p & j & []).
  - rewrite forallb_app in F. apply andb_prop in F. destruct F as [F Fx].
    simpl in Fx. rewrite andb_true_r in Fx.
    destruct (IH F) as (K & Cur & (x1 & X1 & W1) & T1 & T2 & Reg). clear IH.
    rewrite run_snoc. set (s := run sched s2) in *.
    split; [by apply step_keyed|]. split; [by apply step_current|].
    destruct (step_cycle_kept x s c1 x1 X1) as (x1' & X1' & W1' & G1' & Mono).
    split; [exists x1'; split; congruence|].
    split; [|split].
    + intros T. apply ticked_snoc in T. destruct T as [T|(p & j & ->)].
      * specialize (T1 T). unfold running in *. rewrite X1 in T1. rewrite X1'. auto.
      * simpl. eapply tick_superseded; [exact X1|]. rewrite W1.
        destruct Cur as [_ O]. by apply (O c1 x1).
    + destruct T2 as [T2|T2]; [left; apply ticked_snoc; auto|].
      destruct (tick_of x c2) as [(p & j & ->)|N]; [left; apply ticked_snoc; eauto|].
      right. unfold running in *.
      destruct (cycles s !! c2) as [x2|] eqn:X2; [|discriminate].
      erewrite step_cycle_untouched; [exact T2|exact N|exact X2].
    + intros T w L.
      destruct (step_registry_at x s i c2 K Cur Fx) as [N|[[Idle Same]|(p & j & w0 & -> & Wr)]].
      * congruence.
      * apply fetched_by_snoc. apply ticked_snoc in T. destruct T as [T|(p & j & ->)].
        -- apply Reg; [exact T|]. by rewrite <- Same.
        -- destruct T2 as [T|T2].
           ++ apply Reg; [exact T|]. by rewrite <- Same.
           ++ rewrite (Idle p j eq_refl) in T2. discriminate.
      * rewrite Wr in L. injection L as <-. exists p, j. split; [|auto].
        apply in_or_app. simpl. auto.
Qed.

(** C6: a second refresh cycle is started for workspace [i] while an
    earlier cycle [c1] for it is still running.  Whatever happens next on
    the event loop (ticks and failed fetches of any cycle, removals, and
    starts and upserts for other workspaces), once both cycles have
    ticked, the registry entry of [i], if there is one, carries a snapshot
    fetched by the later cycle; the earlier cycle is not running after its
    first tick; and no tick of the earlier cycle changes the registry. *)
Theorem later_cycle_supersedes (history sched : list Step) (i : string)
    (job : option string) (c1 : nat) :
  let s1 := run history init in
  let c2 := length (cycles s1) in
  let s' := run sched (step (Start i job) s1) in
  (exists c, cycles s1 !! c1 = Some c /\ cycle_workspace c = i /\ cycle_running c = true) ->
  forallb (foreign i) sched = true ->
  (ticked c1 sched -> ticked c2 sched ->
   forall w, Registry.get i (registry s') = Some w -> fetched_by c2 sched w)
  /\ (ticked c1 sched -> running c1 s' = false)
  /\ (forall providers jobs, registry (tick c1 providers jobs s') = registry s').
Proof.
  intros s1 c2 s' (c & C & W & _) F.
  destruct (run_wf history) as [K B]. fold s1 in K, B.
  destruct (start_current s1 i job B) as [Cur R]. fold c2 in Cur, R.
  assert (c1 <> c2) as Ne.
  { apply lookup_lt_Some in C. unfold c2. lia. }
  assert (exists c, cycles (start i job s1) !! c1 = Some c /\ cycle_workspace c = i) as E.
  { exists c. split; [|exact W]. simpl. rewrite lookup_app_l; [exact C|].
    by eapply lookup_lt_Some. }
  destruct (supersession_invariant sched (start i job s1) i c1 c2 K Cur R Ne E F)
    as (_ & [_ O] & (x1 & X1 & W1) & T1 & _ & Reg).
  split; [|split].
  - intros _ T w. apply Reg. exact T.
  - exact T1.
  - intros p j. eapply tick_superseded; [exact X1|]. rewrite W1. by apply (O c1 x1).
Qed.

End Supersession.

Lemma later_cycle_supersedes_witness :
  let history := [RefreshCycle.Upsert Example.wsA;
                  RefreshCycle.Start "ws-a" None;
                  RefreshCycle.Tick 0 [Example.ionq] [Example.jobBusy]] in
  let sched := [RefreshCycle.Tick 0 [] [];
                RefreshCycle.FetchFailed 1;
                RefreshCycle.Tick 1 [Example.ionq] [Example.jobDone]] in
  let s' := RefreshCycle.run Example.terminal sched
              (RefreshCycle.step Example.terminal (RefreshCycle.Start "ws-a" (Some "job-7"))
                 (RefreshCycle.run Example.terminal history RefreshCycle.init)) in
  RefreshCycle.fetched_by 1 sched
    (RefreshCycle.with_snapshot Example.wsA [Example.ionq] [Example.jobDone])
  /\ RefreshCycle.running 0 s' = false.
Proof.
  intros history sched s'.
  destruct (later_cycle_supersedes Example.terminal history sched "ws-a" (Some "job-7") 0)
    as (Reg & Stop & _).
  - eexists. split; [reflexivity|]. split; reflexivity.
  - reflexivity.
  - split.
    + apply Reg.
      * exists [], []. simpl. auto.
      * exists [Example.ionq], [Example.jobDone]. simpl. auto.
      * reflexivity.
    + apply Stop. exists [], []. simpl. auto.
Defined.

(** The run of the witness, step by step: the stale tick of the earlier
    cycle changes nothing, the tick of the later cycle is what the
    registry holds, and both cycles have stopped. *)
Example supersession_run :
  let s2 := RefreshCycle.run Example.terminal
              [RefreshCycle.Upsert Example.wsA;
               RefreshCycle.Start "ws-a" None;
               RefreshCycle.Tick 0 [Example.ionq] [Example.jobBusy];
               RefreshCycle.Start "ws-a" (Some "job-7")] RefreshCycle.init in
  let s3 := RefreshCycle.tick Example.terminal 0 [] [] s2 in
  let s4 := RefreshCycle.tick Example.terminal 1 [Example.ionq] [Example.jobDone] s3 in
  RefreshCycle.registry s3 = RefreshCycle.registry s2
  /\ RefreshCycle.running 0 s2 = true
  /\ RefreshCycle.running 0 s3 = false
  /\ Registry.get "ws-a" (RefreshCycle.registry s4)
     = Some (RefreshCycle.with_snapshot Example.wsA [Example.ionq] [Example.jobDone])
  /\ RefreshCycle.running 1 s4 = false.
Proof. vm_compute. repeat split; reflexivity. Qed.

(** * Further properties of the command handlers *)

(** ** What a handler leaves alone *)

Ltac frame :=
  unfold only_trace; simpl; norm_trace; repeat split; try reflexivity;
  rewrite <- ?app_assoc, ?app_nil_r; try reflexivity.

(** X1: targetSubmit catches whatever its collaborators throw: it always
    returns normally, and it touches nothing of the extension's state
    (provider, secret store, captured selection, context keys); all it
    does is in the trace of its calls. *)
Theorem targetSubmit_settles `{Host} (arg : option WorkspaceTreeItem) (w : World) :
  (targetSubmit arg w).1 = Returns tt
  /\ only_trace w (targetSubmit arg w).2.
Proof.
  run_cmd; item_case arg w; host_case; frame.
Qed.

(** X2: downloadResults touches nothing of the extension's state either,
    and the one failure it lets through is Uri.parse throwing on the
    job's outputDataUri, before any call was made. *)
Theorem downloadResults_settles `{Host} (arg : option WorkspaceTreeItem) (w : World) :
  only_trace w (downloadResults arg w).2
  /\ (forall e,
        (downloadResults arg w).1 = Throws e ->
        exists item job uri,
          (resolve arg w).1 = Returns (Some item)
          /\ itemData item = JobData job
          /\ truthy_opt (Job.outputDataUri job) = Some uri
          /\ Uri_parse_path uri = Throws e
          /\ emitted w (downloadResults arg w).2 = []).
Proof.
  unfold resolve. run_cmd; item_case arg w; host_case; (split; [frame|]);
    intros e' E; try discriminate E; injection E as <-.
  all: eexists _, _, _; repeat split; eauto; norm_trace; reflexivity.
Qed.

Lemma downloadResults_settles_witness :
  (resolve (Some Example.jobItem) Example.world).1 = Returns (Some Example.jobItem)
  /\ emitted Example.world
       (downloadResults (H:=Scenario.host_uri (Throws Scenario.UriError))
                        (Some Example.jobItem) Example.world).2 = [].
Proof.
  destruct (@downloadResults_settles (Scenario.host_uri (Throws Scenario.UriError))
              (Some Example.jobItem) Example.world) as [_ T].
  destruct (T Scenario.UriError eq_refl) as (item & job & uri & R & _ & _ & _ & E).
  split; [reflexivity | exact E].
Defined.

(** ** Splitting ids and paths *)



(** The first piece has no separator in it, and it is the whole string or
    what comes before the first separator. *)
Lemma split_head (sep : ascii) (s : string) :
  exists p rest, split sep s = p :: rest
                 /\ ~ occurs sep p
                 /\ (s = p \/ exists r, s = p +:+ String sep r).
Proof.
  unfold occurs. induction s as [|c r (p & rest & E & N & S)]; simpl.
  - exists EmptyString, []. simpl. tauto.
  - destruct (Ascii.eqb_spec c sep) as [->|D].
    + exists EmptyString, (split sep r). simpl. split; [reflexivity|].
      split; [tauto|]. right. by exists r.
    + rewrite E. exists (String c p), rest. split; [reflexivity|]. simpl.
      split; [intros [?|?]; auto|].
      destruct S as [->|[r' ->]]; [by left|]. right. by exists r'.
Qed.

(** ** What targetSubmit sends *)

(** X3: whenever targetSubmit calls submitJob, the program is the
    non-empty QIR that getQirForActiveWindow answered for the target, the
    token is the non-empty token obtained for the item's workspace, the
    URIs are those of that workspace, and the provider id is the target id
    up to its first dot (the whole id when it has no dot). *)
Theorem targetSubmit_submit_arguments `{Host} (arg : option WorkspaceTreeItem) (w : World)
    (token : string) (uris : QuantumUris) (qir providerId targetId : string) :
  In (SubmitJob token uris qir providerId targetId) (emitted w (targetSubmit arg w).2) ->
  exists item target t,
    (resolve arg w).1 = Returns (Some item)
    /\ itemData item = TargetData target
    /\ targetId = Target.id target
    /\ uris = mkUris (WorkspaceConnection.endpointUri (workspace item))
                     (WorkspaceConnection.id (workspace item))
    /\ getQirForActiveWindow (supportsAdaptive targetId) = Returns qir
    /\ qir <> EmptyString
    /\ getTokenForWorkspace (workspace item) = Returns t
    /\ truthy_opt t = Some token
    /\ token <> EmptyString
    /\ ~ occurs "." providerId
    /\ (targetId = providerId \/ exists rest, targetId = providerId +:+ String "." rest).
Proof.
  unfold resolve. run_cmd. item_case arg w; host_case; norm_trace; intros M; member_cases.
  all: repeat match goal with T : truthy_opt ?t = Some ?x |- _ =>
         lazymatch goal with
         | _ : x <> EmptyString |- _ => fail
         | _ => pose proof (proj2 (proj1 (truthy_opt_Some t x) T))
         end end.
  all: match goal with Q : truthy ?q = true |- _ =>
         unfold truthy in Q; apply negb_true_iff, String.eqb_neq in Q end.
  all: match goal with |- context [split "." (Target.id ?t)] =>
         destruct (split_head "." (Target.id t)) as (p & rest & E & N & S); rewrite E; simpl
       end.
  all: eexists _, _, _; repeat split; eauto.
Qed.

Lemma targetSubmit_submit_arguments_witness :
  exists rest, "ionq.simulator" = "ionq" +:+ String "." rest.
Proof.
  destruct (@targetSubmit_submit_arguments Example.host (Some Example.targetItem)
              Example.world "bearer-1" (mkUris "https://alpha.example" "ws-a")
              "%Result = type opaque" "ionq" "ionq.simulator")
    as (_ & _ & _ & _ & _ & _ & _ & _ & _ & _ & _ & _ & _ & [S|S]).
  - vm_compute. tauto.
  - discriminate S.
  - exact S.
Defined.

(** X4: the two quiet ways out of targetSubmit.  An empty program ends
    the command before a token is asked for; a submission that answers
    no job id ends it after submitJob, with no refresh cycle and no
    message. *)
Theorem targetSubmit_quiet_exits `{Host} (arg : option WorkspaceTreeItem) (w : World)
    (item : WorkspaceTreeItem) (target : Target.t) :
  (resolve arg w).1 = Returns (Some item) ->
  itemData item = TargetData target ->
  let adaptive := supportsAdaptive (Target.id target) in
  let uris := mkUris (WorkspaceConnection.endpointUri (workspace item))
                     (WorkspaceConnection.id (workspace item)) in
  let providerId := default EmptyString (head (split "." (Target.id target))) in
  (getQirForActiveWindow adaptive = Returns EmptyString ->
   emitted w (targetSubmit arg w).2 = [GetQirForActiveWindow adaptive]) /\
  (forall qir t token j,
     getQirForActiveWindow adaptive = Returns qir ->
     qir <> EmptyString ->
     getTokenForWorkspace (workspace item) = Returns t ->
     truthy_opt t = Some token ->
     submitJob token uris qir providerId (Target.id target) = Returns j ->
     truthy_opt j = None ->
     emitted w (targetSubmit arg w).2
     = [GetQirForActiveWindow adaptive;
        GetTokenForWorkspace (workspace item);
        SubmitJob token uris qir providerId (Target.id target)]).
Proof.
  intros R D. cbv zeta. unfold resolve in R. simpl in R. run_cmd.
  destruct (match arg with Some a => Some a | None => currentTreeItem w end) as [i|];
    [|discriminate].
  injection R as ->. rewrite D. split.
  - intros Q. rewrite Q. simpl. norm_trace. reflexivity.
  - intros qir t token j Q N K T S J. rewrite Q. simpl.
    assert (truthy qir = true) as -> by (unfold truthy; by apply negb_true_iff, String.eqb_neq).
    simpl. rewrite K. simpl. rewrite T. simpl. rewrite S. simpl. rewrite J.
    norm_trace. reflexivity.
Qed.

Lemma targetSubmit_quiet_exits_witness :
  emitted Example.world
    (targetSubmit (H:=Example.host_qir (Returns EmptyString))
                  (Some Example.targetItem) Example.world).2
  = [GetQirForActiveWindow false]
  /\ emitted Example.world
       (targetSubmit (H:=Example.host_submit (Returns None))
                     (Some Example.targetItem) Example.world).2
     = [GetQirForActiveWindow false;
        GetTokenForWorkspace Example.wsA;
        SubmitJob "bearer-1" (mkUris "https://alpha.example" "ws-a")
                  "%Result = type opaque" "ionq" "ionq.simulator"].
Proof.
  split.
  - destruct (@targetSubmit_quiet_exits (Example.host_qir (Returns EmptyString))
                (Some Example.targetItem) Example.world Example.targetItem
                (Target.mk "ionq.simulator") eq_refl eq_refl) as [E _].
    apply E. reflexivity.
  - destruct (@targetSubmit_quiet_exits (Example.host_submit (Returns None))
                (Some Example.targetItem) Example.world Example.targetItem
                (Target.mk "ionq.simulator") eq_refl eq_refl) as [_ Q].
    apply (Q "%Result = type opaque" (Some "bearer-1") "bearer-1" None);
      try reflexivity. discriminate.
Defined.

(** ** Downloading results *)



(** X6: with an output URI, a token and a file, downloadResults opens the
    file as a JSON document and shows it; when getJobFiles answers no
    file (or an empty one) nothing is opened and no message is shown. *)
Theorem downloadResults_shows_file `{Host} (arg : option WorkspaceTreeItem) (w : World)
    (item : WorkspaceTreeItem) (job : Job.t) (uri path token : string)
    (t f : option string) :
  (resolve arg w).1 = Returns (Some item) ->
  itemData item = JobData job ->
  truthy_opt (Job.outputDataUri job) = Some uri ->
  Uri_parse_path uri = Returns path ->
  getTokenForWorkspace (workspace item) = Returns t ->
  truthy_opt t = Some token ->
  let uris := mkUris (WorkspaceConnection.endpointUri (workspace item))
                     (WorkspaceConnection.id (workspace item)) in
  let container := split "/" path !! 1%nat in
  let blob := split "/" path !! 2%nat in
  getJobFiles container blob token uris = Returns f ->
  (forall file,
     truthy_opt f = Some file ->
     openTextDocument file = Returns tt ->
     (downloadResults arg w).1 = Returns tt
     /\ emitted w (downloadResults arg w).2
        = [GetTokenForWorkspace (workspace item);
           GetJobFiles container blob token uris;
           OpenTextDocument file "json";
           ShowTextDocument]) /\
  (truthy_opt f = None ->
     (downloadResults arg w).1 = Returns tt
     /\ emitted w (downloadResults arg w).2
        = [GetTokenForWorkspace (workspace item);
           GetJobFiles container blob token uris]).
Proof.
  intros R D U P K T. cbv zeta. intros F. unfold resolve in R. simpl in R. run_cmd.
  destruct (match arg with Some a => Some a | None => currentTreeItem w end) as [i|];
    [|discriminate].
  injection R as ->. rewrite D, U. simpl. rewrite P. simpl. rewrite K. simpl.
  rewrite T. simpl. rewrite F. simpl. split.
  - intros file Tf O. rewrite Tf. simpl. rewrite O. norm_trace. split; reflexivity.
  - intros Tf. rewrite Tf. norm_trace. split; reflexivity.
Qed.

Lemma downloadResults_shows_file_witness :
  emitted Example.world
    (downloadResults (H:=Example.host) (Some Example.jobItem) Example.world).2
  = [GetTokenForWorkspace Example.wsA;
     GetJobFiles (Some "container") (Some "blob") "bearer-1"
                 (mkUris "https://alpha.example" "ws-a");
     OpenTextDocument "{}" "json";
     ShowTextDocument]
  /\ emitted Example.world
       (downloadResults (H:=Scenario.host_files (Returns None))
                        (Some Example.jobItem) Example.world).2
     = [GetTokenForWorkspace Example.wsA;
        GetJobFiles (Some "container") (Some "blob") "bearer-1"
                    (mkUris "https://alpha.example" "ws-a")].
Proof.
  split.
  - destruct (@downloadResults_shows_file Example.host (Some Example.jobItem) Example.world
                Example.jobItem Example.jobDone "https://store/container/blob"
                "/container/blob" "bearer-1" (Some "bearer-1") (Some "{}")
                eq_refl eq_refl eq_refl eq_refl eq_refl eq_refl eq_refl) as [S _].
    apply (S "{}"); reflexivity.
  - destruct (@downloadResults_shows_file (Scenario.host_files (Returns None))
                (Some Example.jobItem) Example.world
                Example.jobItem Example.jobDone "https://store/container/blob"
                "/container/blob" "bearer-1" (Some "bearer-1") None
                eq_refl eq_refl eq_refl eq_refl eq_refl eq_refl eq_refl) as [_ N].
    apply N. reflexivity.
Defined.

(** X7: when the token request, getJobFiles or openTextDocument throws,
    downloadResults returns normally: after the calls made up to the
    failure it logs the failure and shows the modal error "Failed to
    download the results file.", with the error's message as detail when
    it is an Error, and nothing more; no document is shown. *)
Theorem downloadResults_failure_is_modal `{Host} (arg : option WorkspaceTreeItem) (w : World)
    (item : WorkspaceTreeItem) (job : Job.t) (uri path : string) (e : Exn) :
  (resolve arg w).1 = Returns (Some item) ->
  itemData item = JobData job ->
  truthy_opt (Job.outputDataUri job) = Some uri ->
  Uri_parse_path uri = Returns path ->
  let uris := mkUris (WorkspaceConnection.endpointUri (workspace item))
                     (WorkspaceConnection.id (workspace item)) in
  let container := split "/" path !! 1%nat in
  let blob := split "/" path !! 2%nat in
  let evs := emitted w (downloadResults arg w).2 in
  let failed :=
    [LogError "Failed to download result file. ";
     ShowErrorMessage "Failed to download the results file." true
       (if exn_instanceofError e then Some (exn_message e) else None)] in
  (getTokenForWorkspace (workspace item) = Throws e
   \/ exists t token,
        getTokenForWorkspace (workspace item) = Returns t
        /\ truthy_opt t = Some token
        /\ (getJobFiles container blob token uris = Throws e
            \/ exists f file,
                 getJobFiles container blob token uris = Returns f
                 /\ truthy_opt f = Some file
                 /\ openTextDocument file = Throws e)) ->
  (downloadResults arg w).1 = Returns tt
  /\ last evs
     = Some (ShowErrorMessage "Failed to download the results file." true
               (if exn_instanceofError e then Some (exn_message e) else None))
  /\ ~ In ShowTextDocument evs
  /\ (getTokenForWorkspace (workspace item) = Throws e ->
      evs = [GetTokenForWorkspace (workspace item)] ++ failed)
  /\ (forall t token,
        getTokenForWorkspace (workspace item) = Returns t ->
        truthy_opt t = Some token ->
        getJobFiles container blob token uris = Throws e ->
        evs = [GetTokenForWorkspace (workspace item);
               GetJobFiles container blob token uris] ++ failed)
  /\ (forall t token f file,
        getTokenForWorkspace (workspace item) = Returns t ->
        truthy_opt t = Some token ->
        getJobFiles container blob token uris = Returns f ->
        truthy_opt f = Some file ->
        evs = [GetTokenForWorkspace (workspace item);
               GetJobFiles container blob token uris;
               OpenTextDocument file "json"] ++ failed).
Proof.
  intros R D U P. cbv zeta. intros Fail. unfold resolve in R. simpl in R. run_cmd.
  destruct (match arg with Some a => Some a | None => currentTreeItem w end) as [i|];
    [|discriminate].
  injection R as ->. rewrite D, U. simpl. rewrite P. simpl.
  destruct Fail as [K|(t & token & K & T & [F|(f & file & F & Tf & O)])];
    rewrite K; simpl; rewrite ?T; simpl; rewrite ?F; simpl; rewrite ?Tf; simpl;
    rewrite ?O; simpl; destruct (exn_instanceofError e); norm_trace;
    split_and!; try reflexivity.
  all: try (intros M; member_cases).
  all: intros; congruence.
Qed.

Lemma downloadResults_failure_is_modal_witness :
  emitted Example.world
    (downloadResults (H:=Scenario.host_files (Throws Example.NetworkError))
                     (Some Example.jobItem) Example.world).2
  = [GetTokenForWorkspace Example.wsA;
     GetJobFiles (Some "container") (Some "blob") "bearer-1"
                 (mkUris "https://alpha.example" "ws-a");
     LogError "Failed to download result file. ";
     ShowErrorMessage "Failed to download the results file." true
       (Some "503 Service Unavailable")]
  /\ emitted Example.world
       (downloadResults (H:=Example.host_token (Throws Example.NetworkError))
                        (Some Example.jobItem) Example.world).2
     = [GetTokenForWorkspace Example.wsA;
        LogError "Failed to download result file. ";
        ShowErrorMessage "Failed to download the results file." true
          (Some "503 Service Unavailable")].
Proof.
  split.
  - destruct (@downloadResults_failure_is_modal
                (Scenario.host_files (Throws Example.NetworkError))
                (Some Example.jobItem) Example.world Example.jobItem Example.jobDone
                "https://store/container/blob" "/container/blob" Example.NetworkError
                eq_refl eq_refl eq_refl eq_refl) as (_ & _ & _ & _ & E & _).
    + right. exists (Some "bearer-1"), "bearer-1". split; [reflexivity|].
      split; [reflexivity|]. left. reflexivity.
    + apply (E (Some "bearer-1") "bearer-1"); reflexivity.
  - destruct (@downloadResults_failure_is_modal
                (Example.host_token (Throws Example.NetworkError))
                (Some Example.jobItem) Example.world Example.jobItem Example.jobDone
                "https://store/container/blob" "/container/blob" Example.NetworkError
                eq_refl eq_refl eq_refl eq_refl) as (_ & _ & _ & E & _).
    + left. reflexivity.
    + apply E. reflexivity.
Defined.

(** X8: downloadResults on a job that has no outputDataUri (undefined or
    empty) only logs an error: no token is asked for, nothing is fetched
    and nothing is shown to the user. *)
Theorem downloadResults_without_output `{Host} (arg : option WorkspaceTreeItem) (w : World)
    (item : WorkspaceTreeItem) (job : Job.t) :
  (resolve arg w).1 = Returns (Some item) ->
  itemData item = JobData job ->
  truthy_opt (Job.outputDataUri job) = None ->
  (downloadResults arg w).1 = Returns tt
  /\ emitted w (downloadResults arg w).2
     = [LogError "Download called for job with null outputDataUri"].
Proof.
  intros R D U. unfold resolve in R. simpl in R. run_cmd.
  destruct (match arg with Some a => Some a | None => currentTreeItem w end) as [i|];
    [|discriminate].
  injection R as ->. rewrite D, U. norm_trace. split; reflexivity.
Qed.

Lemma downloadResults_without_output_witness :
  emitted Example.world
    (downloadResults (H:=Example.host) (Some Scenario.busyItem) Example.world).2
  = [LogError "Download called for job with null outputDataUri"].
Proof.
  apply (@downloadResults_without_output Example.host (Some Scenario.busyItem)
           Example.world Scenario.busyItem Example.jobBusy eq_refl eq_refl eq_refl).
Defined.

(** ** Removing and refreshing workspaces *)

Lemma workspaces_spec (r : gmap string WorkspaceConnection.t) (x : WorkspaceConnection.t) :
  In x (Registry.workspaces r) <-> exists k, r !! k = Some x.
Proof.
  unfold Registry.workspaces. rewrite <- list_elem_of_In, list_elem_of_fmap. split.
  - intros [[k v] [-> M]]. apply elem_of_map_to_list in M. eauto.
  - intros [k M]. exists (k, x). split; [reflexivity|]. by apply elem_of_map_to_list.
Qed.

(** X9: workspacesRemove on a workspace item removes the id of the item's
    workspace from the provider and then persists the list read after the
    removal: the id is no longer among the provider's ids, no saved
    record carries it (the provider holding each workspace under its own
    id), no refresh cycle is started, and removing a workspace that is
    not registered changes no provider entry but still stores the list. *)
Theorem workspacesRemove_removes_then_persists `{Host} (arg : option WorkspaceTreeItem)
    (w : World) (item : WorkspaceTreeItem) (ws : WorkspaceConnection.t) :
  (resolve arg w).1 = Returns (Some item) ->
  itemData item = WorkspaceData ws ->
  let r := Registry.remove (WorkspaceConnection.id ws) (treeState w) in
  let saved := map savedRecord (Registry.workspaces r) in
  (workspacesRemove arg w).1 = Returns tt
  /\ treeState (workspacesRemove arg w).2 = r
  /\ secrets (workspacesRemove arg w).2
     = <[workspacesSecret := JSON_stringify saved]> (secrets w)
  /\ emitted w (workspacesRemove arg w).2
     = [DidChangeTreeData; LogDebug "Saving workspaces: ";
        SecretsStore workspacesSecret (JSON_stringify saved)]
  /\ ~ In (WorkspaceConnection.id ws) (Registry.listIds r)
  /\ (keyedRegistry (treeState w) ->
      forall x, In x saved -> WorkspaceConnection.id x <> WorkspaceConnection.id ws)
  /\ (Registry.get (WorkspaceConnection.id ws) (treeState w) = None -> r = treeState w).
Proof.
  intros R D. cbv zeta. unfold resolve in R. simpl in R.
  unfold workspacesRemove, resolve, removeWorkspace. cbv [mbind cmd_bind bind].
  destruct (match arg with Some a => Some a | None => currentTreeItem w end) as [i|];
    [|discriminate].
  injection R as ->. rewrite D, saveWorkspaceList_run. simpl.
  split_and!; try reflexivity.
  - norm_trace. reflexivity.
  - rewrite listIds_spec. unfold Registry.get, Registry.remove.
    rewrite lookup_delete_eq. by intros [? ?].
  - intros K x M. apply in_map_iff in M. destruct M as (y & <- & M).
    apply workspaces_spec in M. destruct M as [k M]. unfold Registry.remove in M.
    apply lookup_delete_Some in M. destruct M as [N M]. simpl.
    rewrite (K k y M). auto.
  - intros N. by apply delete_id.
Qed.

Lemma workspacesRemove_witness :
  treeState (workspacesRemove (H:=Example.host) (Some Example.workspaceItem)
                              Scenario.world_two).2
  = Registry.remove "ws-a" (treeState Scenario.world_two)
  /\ ~ In "ws-a" (Registry.listIds (Registry.remove "ws-a" (treeState Scenario.world_two))).
Proof.
  destruct (@workspacesRemove_removes_then_persists Example.host
              (Some Example.workspaceItem) Scenario.world_two Example.workspaceItem
              Example.wsA eq_refl eq_refl) as (_ & T & _ & _ & N & _).
  split; [exact T | exact N].
Defined.

Example workspacesRemove_example :
  (workspacesRemove (H:=Example.host) (Some Example.workspaceItem)
                    Scenario.world_two).2.(secrets) !! workspacesSecret
  = Some (Example.stringify [savedRecord Example.wsB]).
Proof. vm_compute. reflexivity. Qed.

Lemma refresh_loop (l : list (string * WorkspaceConnection.t)) (w : World) :
  (forall k v, (k, v) ∈ l -> treeState w !! k = Some v) ->
  for_of (l.*1) (fun id =>
                   workspace ← getWorkspace id;
                   match workspace with
                   | Some workspace => startRefreshCycle workspace None
                   | None => mret tt
                   end) w
  = (Returns tt,
     mkWorld (treeState w) (secrets w) (currentTreeItem w) (contextKeys w)
             (trace w ++ map (fun ws => StartRefreshCycle ws None) (l.*2))).
Proof.
  revert w. induction l as [|[k v] l IH]; intros w A; simpl.
  - unfold ret. rewrite app_nil_r. by destruct w.
  - cbv [mbind cmd_bind bind getWorkspace startRefreshCycle emit]. unfold Registry.get.
    rewrite (A k v) by apply list_elem_of_here.
    rewrite IH by (intros k' v' M; apply A; by apply list_elem_of_further).
    simpl. by rewrite <- app_assoc.
Qed.

Lemma workspacesRefresh_run (w : World) :
  workspacesRefresh w
  = (Returns tt,
     mkWorld (treeState w) (secrets w) (currentTreeItem w) (contextKeys w)
             (trace w ++ map (fun ws => StartRefreshCycle ws None)
                             (Registry.workspaces (treeState w)))).
Proof.
  unfold workspacesRefresh, getWorkspaceIds. cbv [mbind cmd_bind bind].
  unfold Registry.listIds.
  rewrite (refresh_loop (map_to_list (treeState w)) w)
    by (intros k v M; by apply elem_of_map_to_list).
  reflexivity.
Qed.

(** X10: workspacesRefresh starts one refresh cycle, without a job id,
    for each workspace the provider holds, in the order of its ids, and
    does nothing else: with no workspace registered it does nothing. *)
Theorem workspacesRefresh_starts_cycles (w : World) :
  (workspacesRefresh w).1 = Returns tt
  /\ only_trace w (workspacesRefresh w).2
  /\ emitted w (workspacesRefresh w).2
     = map (fun ws => StartRefreshCycle ws None) (Registry.workspaces (treeState w))
  /\ length (emitted w (workspacesRefresh w).2) = size (treeState w).
Proof.
  rewrite workspacesRefresh_run. unfold only_trace. simpl.
  assert (emitted w
            {| treeState := treeState w; secrets := secrets w;
               currentTreeItem := currentTreeItem w; contextKeys := contextKeys w;
               trace := trace w ++ map (fun ws => StartRefreshCycle ws None)
                                       (Registry.workspaces (treeState w)) |}
          = map (fun ws => StartRefreshCycle ws None) (Registry.workspaces (treeState w)))
    as -> by (by apply emitted_app).
  split_and!; try reflexivity.
  rewrite length_map. unfold Registry.workspaces. rewrite length_fmap.
  apply length_map_to_list.
Qed.

Example workspacesRefresh_example :
  emitted Scenario.world_two (workspacesRefresh Scenario.world_two).2
  = [StartRefreshCycle Example.wsA None; StartRefreshCycle Example.wsB None]
  /\ emitted Example.world_saved (workspacesRefresh Example.world_saved).2 = [].
Proof. vm_compute. split; reflexivity. Qed.

(** ** Selection and the commands run from the menu *)

(** X11: after a selection change at most one of the three context flags
    is set, and none is when no item or several items are selected. *)
Theorem selection_flags_exclusive `{Host} (selection : list WorkspaceTreeItem) (w : World) :
  exists supportsQir supportsDownload isWorkspace,
    contextKeys (onDidChangeSelection selection w).2
      !! "qsharp-vscode.treeItemSupportsQir" = Some supportsQir
    /\ contextKeys (onDidChangeSelection selection w).2
         !! "qsharp-vscode.treeItemSupportsDownload" = Some supportsDownload
    /\ contextKeys (onDidChangeSelection selection w).2
         !! "qsharp-vscode.treeItemIsWorkspace" = Some isWorkspace
    /\ supportsQir && supportsDownload = false
    /\ supportsQir && isWorkspace = false
    /\ supportsDownload && isWorkspace = false
    /\ (length selection = 1%nat
        \/ (supportsQir = false /\ supportsDownload = false /\ isWorkspace = false)).
Proof.
  exists (supportsQir_of selection), (supportsDownload_of selection),
         (isWorkspace_of selection).
  simpl. split; [by simplify_map_eq|]. split; [by simplify_map_eq|].
  split; [by simplify_map_eq|].
  unfold supportsQir_of, supportsDownload_of, isWorkspace_of.
  destruct selection as [|item [|]]; simpl.
  - do 3 (split; [reflexivity|]). right. auto.
  - destruct (itemData item); simpl;
      (do 3 (split; [reflexivity || apply andb_false_r|])); by left.
  - do 3 (split; [reflexivity|]). right. auto.
Qed.

(** X12: what the selection handler captures is what a command run
    without an argument acts on: with one item selected the command
    behaves as if it were given that item; after a selection of no item
    or of several items, targetSubmit, workspacesRemove and
    downloadResults run without an argument do nothing. *)
Theorem selection_feeds_commands `{Host} (selection : list WorkspaceTreeItem) (w : World) :
  let w1 := (onDidChangeSelection selection w).2 in
  (forall item,
     selection = [item] ->
     targetSubmit None w1 = targetSubmit (Some item) w1
     /\ workspacesRemove None w1 = workspacesRemove (Some item) w1
     /\ downloadResults None w1 = downloadResults (Some item) w1) /\
  (length selection <> 1%nat ->
     targetSubmit None w1 = (Returns tt, w1)
     /\ workspacesRemove None w1 = (Returns tt, w1)
     /\ downloadResults None w1 = (Returns tt, w1)).
Proof.
  cbv zeta. split.
  - intros item ->. split_and!; reflexivity.
  - intros N. destruct selection as [|item [|]]; simpl in N; try lia;
      split_and!; reflexivity.
Qed.

Lemma selection_feeds_commands_witness :
  emitted (onDidChangeSelection (H:=Example.host) [Example.targetItem] Example.world).2
    (targetSubmit (H:=Example.host) None
       (onDidChangeSelection (H:=Example.host) [Example.targetItem] Example.world).2).2
  = emitted (onDidChangeSelection (H:=Example.host) [Example.targetItem] Example.world).2
      (targetSubmit (H:=Example.host) (Some Example.targetItem)
         (onDidChangeSelection (H:=Example.host) [Example.targetItem] Example.world).2).2
  /\ downloadResults (H:=Example.host) None
       (onDidChangeSelection (H:=Example.host) [Example.jobItem; Example.targetItem]
                             Example.world).2
     = (Returns tt,
        (onDidChangeSelection (H:=Example.host) [Example.jobItem; Example.targetItem]
                              Example.world).2).
Proof.
  split.
  - destruct (@selection_feeds_commands Example.host [Example.targetItem] Example.world)
      as [S _].
    destruct (S Example.targetItem eq_refl) as [-> _]. reflexivity.
  - destruct (@selection_feeds_commands Example.host
                [Example.jobItem; Example.targetItem] Example.world) as [_ N].
    apply N. simpl. lia.
Defined.

(** ** Failures while loading and adding workspaces *)

(** X13: when the saved secret is there but JSON.parse throws on it,
    initAzureWorkspaces fails with that error after the debug log: the
    provider is empty and no refresh cycle is started.  An empty saved
    string counts as nothing saved. *)
Theorem initAzureWorkspaces_unreadable `{Host} (w : World) :
  (forall savedWorkspaces e,
     secrets w !! workspacesSecret = Some savedWorkspaces ->
     savedWorkspaces <> EmptyString ->
     JSON_parse savedWorkspaces = Throws e ->
     (initAzureWorkspaces w).1 = Throws e
     /\ treeState (initAzureWorkspaces w).2 = ∅
     /\ emitted w (initAzureWorkspaces w).2 = [LogDebug "Loading workspaces: "]) /\
  (secrets w !! workspacesSecret = Some EmptyString ->
     (initAzureWorkspaces w).1 = Returns tt
     /\ treeState (initAzureWorkspaces w).2 = ∅
     /\ emitted w (initAzureWorkspaces w).2 = [LogDebug "No saved workspaces found."]).
Proof.
  split.
  - intros s e S N P. unfold initAzureWorkspaces, secrets_get, emit, lift.
    cbv [mbind cmd_bind bind]. simpl. rewrite S.
    assert (truthy_opt (Some s) = Some s) as -> by (by apply truthy_opt_Some).
    simpl. rewrite P. split_and!; try reflexivity. norm_trace. reflexivity.
  - intros S. unfold initAzureWorkspaces, secrets_get, emit.
    cbv [mbind cmd_bind bind]. simpl. rewrite S. simpl.
    split_and!; try reflexivity. norm_trace. reflexivity.
Qed.

Lemma initAzureWorkspaces_unreadable_witness :
  (initAzureWorkspaces (H:=Example.host) Scenario.world_corrupt).1
  = Throws Example.SyntaxError
  /\ treeState (initAzureWorkspaces (H:=Example.host) Scenario.world_corrupt).2 = ∅.
Proof.
  destruct (@initAzureWorkspaces_unreadable Example.host Scenario.world_corrupt) as [U _].
  destruct (U "not json" Example.SyntaxError) as (E & T & _).
  - reflexivity.
  - discriminate.
  - reflexivity.
  - split; [exact E | exact T].
Defined.

(** X14: when workspace discovery throws, workspacesAdd fails with that
    error right after the query: nothing is upserted, nothing is stored
    and no refresh cycle is started. *)
Theorem workspacesAdd_discovery_fails `{Host} (w : World) (e : Exn) :
  queryWorkspaces = Throws e ->
  (workspacesAdd w).1 = Throws e
  /\ only_trace w (workspacesAdd w).2
  /\ emitted w (workspacesAdd w).2 = [QueryWorkspaces].
Proof.
  intros Q. unfold workspacesAdd, call. cbv [mbind cmd_bind bind]. rewrite Q.
  split; [reflexivity|]. split; [frame|]. norm_trace. reflexivity.
Qed.

Lemma workspacesAdd_discovery_fails_witness :
  (workspacesAdd (H:=Example.host_query (Throws Example.NetworkError)) Example.world).1
  = Throws Example.NetworkError
  /\ emitted Example.world
       (workspacesAdd (H:=Example.host_query (Throws Example.NetworkError))
                      Example.world).2
     = [QueryWorkspaces].
Proof.
  destruct (@workspacesAdd_discovery_fails
              (Example.host_query (Throws Example.NetworkError)) Example.world
              Example.NetworkError eq_refl) as (E & _ & T).
  split; [exact E | exact T].
Defined.

(** ** Saving and loading again *)

Lemma upsert_all_keyed (l : list WorkspaceConnection.t) (r : gmap string WorkspaceConnection.t) :
  keyedRegistry r -> keyedRegistry (Registry.upsert_all l r).
Proof.
  revert r. induction l as [|x l IH]; intros r K; simpl; [exact K|].
  apply IH. intros k v. unfold Registry.upsert.
  destruct (decide (WorkspaceConnection.id x = k)) as [<-|N].
  - rewrite lookup_insert_eq. by intros [= <-].
  - rewrite lookup_insert_ne by exact N. apply K.
Qed.

Lemma empty_keyed : keyedRegistry ∅.
Proof. intros k v L. by rewrite lookup_empty in L. Qed.

(** X15: the handlers keep every workspace of the provider under its own
    id: initAzureWorkspaces establishes it, and the selection handler and
    every command preserve it. *)
Theorem handlers_keep_registry_keyed `{Host} (w : World) :
  keyedRegistry (treeState (initAzureWorkspaces w).2)
  /\ (keyedRegistry (treeState w) ->
      forall (arg : option WorkspaceTreeItem) (selection : list WorkspaceTreeItem),
        keyedRegistry (treeState (onDidChangeSelection selection w).2)
        /\ keyedRegistry (treeState (targetSubmit arg w).2)
        /\ keyedRegistry (treeState (workspacesRefresh w).2)
        /\ keyedRegistry (treeState (saveWorkspaceList w).2)
        /\ keyedRegistry (treeState (workspacesAdd w).2)
        /\ keyedRegistry (treeState (workspacesRemove arg w).2)
        /\ keyedRegistry (treeState (downloadResults arg w).2)).
Proof.
  split.
  - unfold initAzureWorkspaces, secrets_get, emit, lift. cbv [mbind cmd_bind bind]. simpl.
    destruct (truthy_opt (secrets w !! workspacesSecret)) as [s|]; simpl;
      [|apply empty_keyed].
    destruct (JSON_parse s) as [l|e]; simpl; [|apply empty_keyed].
    rewrite load_loop. simpl. apply upsert_all_keyed, empty_keyed.
  - intros K arg selection. split_and!.
    + exact K.
    + revert K. run_cmd; item_case arg w; host_case; auto.
    + rewrite workspacesRefresh_run. exact K.
    + rewrite saveWorkspaceList_run. exact K.
    + unfold workspacesAdd, call, updateWorkspace. cbv [mbind cmd_bind bind].
      destruct queryWorkspaces as [[ws|]|e]; simpl; try exact K.
      rewrite saveWorkspaceList_run. simpl.
      apply (upsert_all_keyed [ws]). exact K.
    + unfold workspacesRemove, resolve, removeWorkspace. cbv [mbind cmd_bind bind].
      destruct (match arg with Some a => Some a | None => currentTreeItem w end) as [i|];
        [|exact K].
      destruct (itemData i); try exact K. rewrite saveWorkspaceList_run. simpl.
      intros k v L. unfold Registry.remove in L. apply lookup_delete_Some in L.
      destruct L as [_ L]. by apply K.
    + revert K. run_cmd; item_case arg w; host_case; auto.
Qed.

Lemma handlers_keep_registry_keyed_witness :
  keyedRegistry (treeState (workspacesAdd (H:=Example.host) Example.world).2).
Proof.
  destruct (@handlers_keep_registry_keyed Example.host Example.world) as [_ K].
  apply (K (upsert_all_keyed [Example.wsA] ∅ empty_keyed) None []).
Defined.

Lemma upsert_all_saved (l : list (string * WorkspaceConnection.t))
    (acc : gmap string WorkspaceConnection.t) (k : string) :
  NoDup (l.*1) ->
  (forall k' v, (k', v) ∈ l -> WorkspaceConnection.id v = k') ->
  Registry.upsert_all (map savedRecord (l.*2)) acc !! k
  = match (list_to_map l : gmap string WorkspaceConnection.t) !! k with
    | Some v => Some (savedRecord v)
    | None => acc !! k
    end.
Proof.
  revert acc. induction l as [|[k0 v0] l IH]; intros acc D K; simpl; [reflexivity|].
  apply NoDup_cons in D. destruct D as [Fresh D].
  rewrite IH; [|exact D|intros k' v M; apply K; by apply list_elem_of_further].
  unfold Registry.upsert. simpl. rewrite (K k0 v0) by apply list_elem_of_here.
  destruct (decide (k0 = k)) as [<-|N].
  - rewrite lookup_insert_eq.
    rewrite (not_elem_of_list_to_map_1 (M:=gmap string) l k0 Fresh).
    by rewrite lookup_insert_eq.
  - by rewrite !lookup_insert_ne by exact N.
Qed.

(** Loading what was saved from a provider gives the saved record of each
    of its workspaces, under the same ids. *)
Lemma reload_saved (r : gmap string WorkspaceConnection.t) :
  keyedRegistry r ->
  Registry.upsert_all (map savedRecord (Registry.workspaces r)) ∅ = savedRecord <$> r.
Proof.
  intros K. apply map_eq. intros k. unfold Registry.workspaces.
  rewrite upsert_all_saved.
  - rewrite list_to_map_to_list, lookup_fmap, lookup_empty. by destruct (r !! k).
  - apply NoDup_fst_map_to_list.
  - intros k' v M. apply elem_of_map_to_list in M. by apply K.
Qed.

Lemma init_after_save `{Host} (r : gmap string WorkspaceConnection.t) (w1 : World) :
  keyedRegistry r ->
  let saved := map savedRecord (Registry.workspaces r) in
  secrets w1 !! workspacesSecret = Some (JSON_stringify saved) ->
  JSON_stringify saved <> EmptyString ->
  JSON_parse (JSON_stringify saved) = Returns saved ->
  initAzureWorkspaces w1
  = (Returns tt,
     mkWorld (savedRecord <$> r) (secrets w1) None (contextKeys w1)
             (trace w1 ++ LogDebug "Loading workspaces: " :: loaded saved)).
Proof.
  intros K saved S N P. unfold initAzureWorkspaces, secrets_get, emit, lift.
  cbv [mbind cmd_bind bind]. simpl. rewrite S.
  assert (truthy_opt (Some (JSON_stringify saved)) = Some (JSON_stringify saved)) as ->
    by (by apply truthy_opt_Some).
  simpl. rewrite P, load_loop. simpl. unfold saved at 1. rewrite reload_saved by exact K.
  by rewrite <- app_assoc.
Qed.

(** X16: saving and loading again.  When JSON.parse reads back the list
    JSON.stringify wrote, initAzureWorkspaces run on what
    saveWorkspaceList stored brings back every workspace under its id
    with its name, endpointUri, tenantId and apiKey, with empty providers
    and jobs, and starts one refresh cycle for each. *)
Theorem save_then_init_restores `{Host} (w : World) :
  keyedRegistry (treeState w) ->
  let saved := map savedRecord (Registry.workspaces (treeState w)) in
  let w1 := (saveWorkspaceList w).2 in
  JSON_stringify saved <> EmptyString ->
  JSON_parse (JSON_stringify saved) = Returns saved ->
  (initAzureWorkspaces w1).1 = Returns tt
  /\ (forall i, Registry.get i (treeState (initAzureWorkspaces w1).2)
                = savedRecord <$> Registry.get i (treeState w))
  /\ (forall i, In i (Registry.listIds (treeState (initAzureWorkspaces w1).2))
                <-> In i (Registry.listIds (treeState w)))
  /\ List.filter is_cycle (emitted w1 (initAzureWorkspaces w1).2)
     = map (fun ws => StartRefreshCycle ws None) saved.
Proof.
  intros K saved w1 N P. subst w1. rewrite saveWorkspaceList_run. cbv zeta.
  fold saved.
  rewrite (init_after_save (treeState w)); try assumption;
    [|simpl; apply lookup_insert_eq].
  simpl. split; [reflexivity|]. split; [|split].
  - intros i. unfold Registry.get. apply lookup_fmap.
  - intros i. rewrite !listIds_spec. unfold Registry.get. rewrite lookup_fmap.
    apply fmap_is_Some.
  - erewrite emitted_app; [|reflexivity]. simpl. apply filter_cycle_loaded.
Qed.

Lemma save_then_init_restores_witness :
  Registry.get "ws-a"
    (treeState (initAzureWorkspaces (H:=Scenario.host_reload)
                  (saveWorkspaceList (H:=Scenario.host_reload) Scenario.world_two).2).2)
  = Some (savedRecord Example.wsA).
Proof.
  destruct (@save_then_init_restores Scenario.host_reload Scenario.world_two)
    as (_ & G & _).
  - apply (upsert_all_keyed [Example.wsA; Example.wsB] ∅ empty_keyed).
  - discriminate.
  - reflexivity.
  - rewrite G. reflexivity.
Defined.

(** X17: a removed workspace stays removed.  When JSON.parse reads back
    the list workspacesRemove stored, a later initAzureWorkspaces does
    not bring the removed workspace back, and brings back every other
    workspace. *)
Theorem removed_workspace_stays_removed `{Host} (arg : option WorkspaceTreeItem) (w : World)
    (item : WorkspaceTreeItem) (ws : WorkspaceConnection.t) :
  (resolve arg w).1 = Returns (Some item) ->
  itemData item = WorkspaceData ws ->
  keyedRegistry (treeState w) ->
  let saved := map savedRecord
                   (Registry.workspaces
                      (Registry.remove (WorkspaceConnection.id ws) (treeState w))) in
  let w1 := (workspacesRemove arg w).2 in
  JSON_stringify saved <> EmptyString ->
  JSON_parse (JSON_stringify saved) = Returns saved ->
  (initAzureWorkspaces w1).1 = Returns tt
  /\ Registry.get (WorkspaceConnection.id ws) (treeState (initAzureWorkspaces w1).2) = None
  /\ (forall i, i <> WorkspaceConnection.id ws ->
                Registry.get i (treeState (initAzureWorkspaces w1).2)
                = savedRecord <$> Registry.get i (treeState w)).
Proof.
  intros R D K saved w1 N P.
  assert (initAzureWorkspaces w1
          = (Returns tt,
             mkWorld (savedRecord <$> Registry.remove (WorkspaceConnection.id ws) (treeState w))
                     (secrets w1) None (contextKeys w1)
                     (trace w1 ++ LogDebug "Loading workspaces: " :: loaded saved))) as E.
  { apply init_after_save; try assumption.
    - intros k v L. unfold Registry.remove in L. apply lookup_delete_Some in L.
      destruct L as [_ L]. by apply K.
    - subst w1. unfold resolve in R. simpl in R.
      unfold workspacesRemove, resolve, removeWorkspace. cbv [mbind cmd_bind bind].
      destruct (match arg with Some a => Some a | None => currentTreeItem w end) as [i|];
        [|discriminate].
      injection R as ->. rewrite D, saveWorkspaceList_run. simpl.
      apply lookup_insert_eq. }
  rewrite E. cbn [fst snd treeState]. unfold Registry.get, Registry.remove.
  split; [reflexivity|]. split.
  - by rewrite lookup_fmap, lookup_delete_eq.
  - intros k Nk. by rewrite !lookup_fmap, lookup_delete_ne.
Qed.

Lemma removed_workspace_stays_removed_witness :
  Registry.get "ws-a"
    (treeState (initAzureWorkspaces (H:=Scenario.host_reload)
                  (workspacesRemove (H:=Scenario.host_reload)
                     (Some Example.workspaceItem) Scenario.world_two).2).2)
  = None
  /\ Registry.get "ws-b"
       (treeState (initAzureWorkspaces (H:=Scenario.host_reload)
                     (workspacesRemove (H:=Scenario.host_reload)
                        (Some Example.workspaceItem) Scenario.world_two).2).2)
     = Some (savedRecord Example.wsB).
Proof.
  destruct (@removed_workspace_stays_removed Scenario.host_reload
              (Some Example.workspaceItem) Scenario.world_two Example.workspaceItem
              Example.wsA eq_refl eq_refl) as (_ & G & O).
  - apply (upsert_all_keyed [Example.wsA; Example.wsB] ∅ empty_keyed).
  - discriminate.
  - reflexivity.
  - split; [exact G|]. rewrite (O "ws-b") by discriminate. reflexivity.
Defined.

(** X18: an added workspace is there after a restart.  When JSON.parse
    reads back the list workspacesAdd stored, a later initAzureWorkspaces
    holds the new workspace under its id, with its name, endpointUri,
    tenantId and apiKey and with empty providers and jobs, beside the
    workspaces that were there. *)
Theorem added_workspace_is_reloaded `{Host} (w : World) (ws : WorkspaceConnection.t) :
  queryWorkspaces = Returns (Some ws) ->
  keyedRegistry (treeState w) ->
  let saved := map savedRecord
                   (Registry.workspaces (Registry.upsert ws (treeState w))) in
  let w1 := (workspacesAdd w).2 in
  JSON_stringify saved <> EmptyString ->
  JSON_parse (JSON_stringify saved) = Returns saved ->
  (initAzureWorkspaces w1).1 = Returns tt
  /\ Registry.get (WorkspaceConnection.id ws) (treeState (initAzureWorkspaces w1).2)
     = Some (savedRecord ws)
  /\ (forall i, i <> WorkspaceConnection.id ws ->
                Registry.get i (treeState (initAzureWorkspaces w1).2)
                = savedRecord <$> Registry.get i (treeState w)).
Proof.
  intros Q K saved w1 N P.
  assert (initAzureWorkspaces w1
          = (Returns tt,
             mkWorld (savedRecord <$> Registry.upsert ws (treeState w))
                     (secrets w1) None (contextKeys w1)
                     (trace w1 ++ LogDebug "Loading workspaces: " :: loaded saved))) as E.
  { apply init_after_save; try assumption.
    - apply (upsert_all_keyed [ws]). exact K.
    - subst w1. unfold workspacesAdd, call, updateWorkspace. cbv [mbind cmd_bind bind].
      rewrite Q, saveWorkspaceList_run. simpl. apply lookup_insert_eq. }
  rewrite E. cbn [fst snd treeState]. unfold Registry.get, Registry.upsert.
  split; [reflexivity|]. split.
  - by rewrite lookup_fmap, lookup_insert_eq.
  - intros k Nk. rewrite !lookup_fmap, lookup_insert_ne; auto.
Qed.

Lemma added_workspace_is_reloaded_witness :
  Registry.get "ws-b"
    (treeState (initAzureWorkspaces (H:=Scenario.host_reload)
                  (workspacesAdd (H:=Scenario.host_reload) Example.world).2).2)
  = Some (savedRecord Example.wsB).
Proof.
  destruct (@added_workspace_is_reloaded Scenario.host_reload Example.world Example.wsB
              eq_refl) as (_ & G & _).
  - apply (upsert_all_keyed [Example.wsA] ∅ empty_keyed).
  - discriminate.
  - reflexivity.
  - exact G.
Defined.
